(** * godateparser: dispatch, normalisation and extraction

    A shallow embedding of [godateparser.go] (package [godateparser]):
    [Settings], [DefaultSettings], [normalizeSettings], [isParserEnabled],
    [isSpecificError], [ParseDate] and [ExtractDates]; and of the callers
    [removeHTMLTags] and [scrapeDates] of [examples/web_scraper.go] and
    [buildSettings] of [examples/cli_tool.go].

    The strategy parsers ([parseTimestamp], [parseAbsolute], ...), the
    extraction engine ([extractAllDates]), the error types ([errors.go]) and
    the [translations] package are not among the sources.  The dispatch code
    is therefore stated over an arbitrary family of strategy parsers, and the
    parts a statement needs beyond that are modelled from the specification,
    each under a comment that says so.  [ParseDate] and [ExtractDates] are
    written twice: with a log of the calls they make, and with the package
    state their callees may keep passed from call to call. *)

From Stdlib Require Import ZArith List String Ascii Bool Lia.
From stdpp Require Import base tactics option list strings sorting.

Open Scope string_scope.
Open Scope list_scope.
Open Scope Z_scope.

(** ** The [time] package, as far as the engine uses it *)

Module time.

(** [*time.Location]: a zone name and its offset east of UTC, in seconds. *)
Record Location : Type := mkLocation {
  locName : string;
  locOffset : Z
}.

Definition UTC : Location := mkLocation "UTC" 0.

(** [time.Time]: seconds and nanoseconds elapsed since January 1, year 1,
    00:00:00 UTC, and the location the instant is displayed in. *)
Record Time : Type := mkTime {
  sec : Z;
  nsec : Z;
  loc : Location
}.

(** [time.Time{}], the zero value. *)
Definition zeroTime : Time := mkTime 0 0 UTC.

(** [t.IsZero()]: the instant is January 1, year 1, 00:00:00 UTC. *)
Definition IsZero (t : Time) : bool := (sec t =? 0) && (nsec t =? 0).

(** Days from January 1, year 1 to the given proleptic Gregorian civil date
    (months counted from March inside, so that the leap day comes last). *)
Definition daysSinceEpoch (year month day : Z) : Z :=
  let y := if month <=? 2 then year - 1 else year in
  let era := y / 400 in
  let yoe := y - era * 400 in
  let mp := if month <=? 2 then month + 9 else month - 3 in
  let doy := (153 * mp + 2) / 5 + day - 1 in
  let doe := yoe * 365 + yoe / 4 - yoe / 100 + doy in
  era * 146097 + doe - 306.

(** [time.Date(year, month, day, hour, min, sec, nsec, loc)]; a month outside
    1..12 carries into the year as Go's normalisation does. *)
Definition Date (year month day hour min s ns : Z) (l : Location) : Time :=
  let year' := year + (month - 1) / 12 in
  let month' := (month - 1) mod 12 + 1 in
  mkTime (daysSinceEpoch year' month' day * 86400
          + hour * 3600 + min * 60 + s - locOffset l) ns l.

End time.

(** ** Settings and results ([godateparser.go]) *)

Record Settings : Type := mkSettings {
  DateOrder : string;
  Languages : list string;
  RelativeBase : time.Time;
  EnableParsers : list string;
  Strict : bool;
  PreferredTimezone : option time.Location;   (* a nil pointer is [None] *)
  PreferDatesFrom : string
}.

(** [Confidence] is a [float64] between 0.0 and 1.0 in the source; it is kept
    in thousandths here, which preserves the order the engine compares by. *)
Record ParsedDate : Type := mkParsedDate {
  Date : time.Time;
  Position : Z;
  Length : Z;
  MatchedText : string;
  Confidence : Z
}.

(** The list [DefaultSettings] and [normalizeSettings] both spell out. *)
Definition allParsers : list string :=
  ["timestamp"; "relative"; "absolute"; "timezone";
   "time"; "incomplete"; "ordinal"; "week"].

Definition DefaultSettings : Settings :=
  {| DateOrder := "MDY";
     Languages := ["en"];
     RelativeBase := time.zeroTime;
     EnableParsers := allParsers;
     Strict := false;
     PreferredTimezone := Some time.UTC;
     PreferDatesFrom := "future" |}.

(** ** Errors *)

(** Modelled from the spec: the error types of the missing [errors.go], the
    failure taxonomy of section 7 under the names the CHANGELOG (v0.2.0)
    gives them; [ErrParseFailure] carries the error it gives context to,
    which is what [errors.As] walks through; [errorString] is a plain
    [errors.New] message. *)
Inductive error : Type :=
| ErrEmptyInput
| ErrInvalidFormat (input : string)
| ErrInvalidDate (reason : string)
| ErrAmbiguousDate (input : string)
| ErrParseFailure (context : string) (cause : error)
| errorString (msg : string).

(** Modelled from the spec: the constructor of the missing [errors.go] for
    the invalid-format failure, which carries the offending text. *)
Definition newInvalidFormatError (input : string) : error :=
  ErrInvalidFormat input.

(** [errors.As(err, &target)] for a target of type [*ErrAmbiguousDate]: an
    error of that type in the chain of causes of [err]. *)
Fixpoint errorsAsAmbiguous (e : error) : bool :=
  match e with
  | ErrAmbiguousDate _ => true
  | ErrParseFailure _ cause => errorsAsAmbiguous cause
  | _ => false
  end.

(** The same for a target of type [*ErrInvalidDate]. *)
Fixpoint errorsAsInvalidDate (e : error) : bool :=
  match e with
  | ErrInvalidDate _ => true
  | ErrParseFailure _ cause => errorsAsInvalidDate cause
  | _ => false
  end.

(** [isSpecificError]; [err != nil] holds of every [error] value here, the
    nil error being the [Ok] case of [result]. *)
Definition isSpecificError (err : error) : bool :=
  errorsAsAmbiguous err || errorsAsInvalidDate err.

(** A Go pair [(T, error)]: the value when the error is nil, else the error. *)
Inductive result (A : Type) : Type :=
| Ok (a : A)
| Err (e : error).
Arguments Ok {A} a.
Arguments Err {A} e.

(** ** The language registry ([translations]) *)

(** Modelled from the spec: a language of the missing [translations]
    package, the externally owned lexical table of section 3, reduced to the
    [Code] and [Name] the tests of the package read. *)
Record Language : Type := mkLanguage {
  Code : string;
  Name : string
}.

(** Modelled from the spec: the missing registry, read-only during a call;
    its lookups follow the tests of the package ([TestRegistry_GetMultiple]):
    the registered codes are kept in the order asked for, and English
    answers when none is registered. *)
Definition Registry : Type := list Language.

Definition English : Language := mkLanguage "en" "English".

(** The language registered under [code], if any. *)
Fixpoint registryFind (r : Registry) (code : string) : option Language :=
  match r with
  | [] => None
  | l :: rest => if String.eqb (Code l) code then Some l else registryFind rest code
  end.

(** [registry.GetMultiple(codes)]. *)
Definition GetMultiple (r : Registry) (codes : list string) : list Language :=
  match omap (registryFind r) codes with
  | [] => [English]
  | found => found
  end.

(** What a call reads from outside its arguments: the clock ([time.Now()])
    and the process-wide [translations.GlobalRegistry]. *)
Record Runtime : Type := mkRuntime {
  Now : time.Time;
  GlobalRegistry : Registry
}.

(** ** Parser context and settings normalisation *)

Record parserContext : Type := mkContext {
  input : string;
  settings : Settings;
  autoDetectDateOrder : bool;
  languages : list Language
}.

Definition normalizeSettings (now : time.Time) (opts : Settings) : Settings :=
  let DateOrder' := if String.eqb (DateOrder opts) "" then "MDY" else DateOrder opts in
  let Languages' :=
    if (Z.of_nat (length (Languages opts)) =? 0) then ["en"] else Languages opts in
  let RelativeBase' := if time.IsZero (RelativeBase opts) then now else RelativeBase opts in
  let EnableParsers' :=
    if (Z.of_nat (length (EnableParsers opts)) =? 0) then allParsers
    else EnableParsers opts in
  let PreferredTimezone' :=
    match PreferredTimezone opts with
    | None => Some time.UTC
    | Some l => Some l
    end in
  let PreferDatesFrom' :=
    if String.eqb (PreferDatesFrom opts) "" then "future" else PreferDatesFrom opts in
  {| DateOrder := DateOrder';
     Languages := Languages';
     RelativeBase := RelativeBase';
     EnableParsers := EnableParsers';
     Strict := Strict opts;
     PreferredTimezone := PreferredTimezone';
     PreferDatesFrom := PreferDatesFrom' |}.

(** The [for ... range] loop of [isParserEnabled]. *)
Fixpoint isEnabledIn (enabled : list string) (parserName : string) : bool :=
  match enabled with
  | [] => false
  | e :: rest => if String.eqb e parserName then true else isEnabledIn rest parserName
  end.

Definition isParserEnabled (s : Settings) (parserName : string) : bool :=
  isEnabledIn (EnableParsers s) parserName.

(** ** Strategy parsers and the dispatch of [ParseDate] *)

(** A strategy parser: [func(ctx *parserContext) (time.Time, error)]. *)
Definition Parser : Type := parserContext -> result time.Time.

(** The seven functions [ParseDate] calls, under their names in the source. *)
Record Strategies : Type := mkStrategies {
  parseTimestamp : Parser;
  parseAbsolute : Parser;
  parseRelative : Parser;
  tryParseTime : Parser;
  tryParseIncompleteDate : Parser;
  tryParseOrdinalDate : Parser;
  tryParseWeekNumber : Parser
}.

(** The seven call sites of [ParseDate]. *)
Inductive Strategy : Type :=
| STimestamp | SAbsolute | SRelative | STime | SIncomplete | SOrdinal | SWeek.

(** The function called at a call site. *)
Definition run (P : Strategies) (s : Strategy) : Parser :=
  match s with
  | STimestamp => parseTimestamp P
  | SAbsolute => parseAbsolute P
  | SRelative => parseRelative P
  | STime => tryParseTime P
  | SIncomplete => tryParseIncompleteDate P
  | SOrdinal => tryParseOrdinalDate P
  | SWeek => tryParseWeekNumber P
  end.

(** The log of a call: which strategy functions were called, in order, and
    the context each was handed. *)
Record Call : Type := mkCall {
  callee : Strategy;
  callCtx : parserContext
}.

(** The calls of one invocation, oldest first. *)
Definition Trace : Type := list Call.

(** One numbered block of [ParseDate]: the guard on [isParserEnabled], the
    call, the return on success, the return of a specific error, and
    otherwise the append to [parseErrors] and the fall through to [next]. *)
Definition attempt (P : Strategies) (ctx : parserContext)
    (parserName : string) (s : Strategy)
    (next : list error -> Trace * result time.Time)
    (parseErrors : list error) : Trace * result time.Time :=
  if isParserEnabled (settings ctx) parserName then
    match run P s ctx with
    | Ok r => ([mkCall s ctx], Ok r)
    | Err err =>
        if isSpecificError err then ([mkCall s ctx], Err err)
        else
          let r := next (parseErrors ++ [err]) in
          (mkCall s ctx :: fst r, snd r)
    end
  else next parseErrors.

(** [if opts == nil { opts = DefaultSettings() }]. *)
Definition orDefault (opts : option Settings) : Settings :=
  match opts with
  | None => DefaultSettings
  | Some o => o
  end.

(** The context [ParseDate] and [ExtractDates] build for a non-empty input. *)
Definition makeContext (rt : Runtime) (text : string) (opts : option Settings)
    : parserContext :=
  let opts := orDefault opts in
  let autoDetect := String.eqb (DateOrder opts) "" in
  let settings := normalizeSettings (Now rt) opts in
  let langs := GetMultiple (GlobalRegistry rt) (Languages settings) in
  mkContext text settings autoDetect langs.

Definition ParseDate (P : Strategies) (rt : Runtime)
    (input : string) (opts : option Settings) : Trace * result time.Time :=
  if String.eqb input "" then ([], Err ErrEmptyInput)
  else
    let ctx := makeContext rt input opts in
    attempt P ctx "timestamp" STimestamp
      (attempt P ctx "absolute" SAbsolute
        (attempt P ctx "relative" SRelative
          (attempt P ctx "time" STime
            (attempt P ctx "incomplete" SIncomplete
              (attempt P ctx "ordinal" SOrdinal
                (attempt P ctx "week" SWeek
                  (fun parseErrors =>
                     if 0 <? Z.of_nat (length parseErrors)
                     then ([], Err (newInvalidFormatError input))
                     else ([], Err (newInvalidFormatError input)))))))))
      [].

(** [extractAllDates]: [func(ctx *parserContext) ([]ParsedDate, error)]. *)
Definition Extractor : Type := parserContext -> result (list ParsedDate).

(** [ExtractDates], with the contexts handed to [extractAllDates] as log. *)
Definition ExtractDates (extractAllDates : Extractor) (rt : Runtime)
    (text : string) (opts : option Settings)
    : list parserContext * result (list ParsedDate) :=
  if String.eqb text "" then ([], Err ErrEmptyInput)
  else
    let ctx := makeContext rt text opts in
    ([ctx], extractAllDates ctx).

(** The slice a caller holds: nil beside an error. *)
Definition matchesOf (r : result (list ParsedDate)) : list ParsedDate :=
  match r with
  | Ok ms => ms
  | Err _ => []
  end.

(** ** The dispatch as a walk over the priority list *)

(** The name each numbered block of [ParseDate] asks [isParserEnabled] for. *)
Definition strategyName (s : Strategy) : string :=
  match s with
  | STimestamp => "timestamp"
  | SAbsolute => "absolute"
  | SRelative => "relative"
  | STime => "time"
  | SIncomplete => "incomplete"
  | SOrdinal => "ordinal"
  | SWeek => "week"
  end.

(** The order of the numbered blocks, 1 to 7. *)
Definition priority : list Strategy :=
  [STimestamp; SAbsolute; SRelative; STime; SIncomplete; SOrdinal; SWeek].

(** The numbered blocks of [ps] in a row, then the closing return of
    [newInvalidFormatError]; [ParseDate] is the walk over [priority]. *)
Fixpoint dispatch (P : Strategies) (ctx : parserContext)
    (ps : list Strategy) (parseErrors : list error) : Trace * result time.Time :=
  match ps with
  | [] =>
      if 0 <? Z.of_nat (length parseErrors)
      then ([], Err (newInvalidFormatError (input ctx)))
      else ([], Err (newInvalidFormatError (input ctx)))
  | s :: rest =>
      attempt P ctx (strategyName s) s (dispatch P ctx rest) parseErrors
  end.

(** The strategies of [ps] that the settings of [ctx] enable, in order. *)
Fixpoint enabledOf (ctx : parserContext) (ps : list Strategy) : list Strategy :=
  match ps with
  | [] => []
  | s :: rest =>
      if isParserEnabled (settings ctx) (strategyName s)
      then s :: enabledOf ctx rest
      else enabledOf ctx rest
  end.

(** The parser fails, and not with an error [isSpecificError] recognises. *)
Definition failsGenerically (P : Strategies) (ctx : parserContext)
    (s : Strategy) : Prop :=
  exists e, run P s ctx = Err e /\ isSpecificError e = false.

(** The log of calling the strategies of [l] in order, each on [ctx]. *)
Definition callsOf (ctx : parserContext) (l : list Strategy) : Trace :=
  map (fun s => mkCall s ctx) l.

(** What a walk does: it stops at the first enabled parser that succeeds or
    fails specifically, or runs out of enabled parsers. *)
Inductive Outcome (P : Strategies) (ctx : parserContext)
    (enabled : list Strategy) : Trace -> result time.Time -> Prop :=
| StopSuccess pre s post t :
    enabled = pre ++ s :: post ->
    Forall (failsGenerically P ctx) pre ->
    run P s ctx = Ok t ->
    Outcome P ctx enabled (callsOf ctx (pre ++ [s])) (Ok t)
| StopSpecific pre s post e :
    enabled = pre ++ s :: post ->
    Forall (failsGenerically P ctx) pre ->
    run P s ctx = Err e ->
    isSpecificError e = true ->
    Outcome P ctx enabled (callsOf ctx (pre ++ [s])) (Err e)
| Exhausted :
    Forall (failsGenerically P ctx) enabled ->
    Outcome P ctx enabled
      (callsOf ctx enabled) (Err (newInvalidFormatError (input ctx))).

(** ** State kept by the functions [ParseDate] calls

    [ParseDate] and [ExtractDates] declare local variables only.  The
    strategy parsers and [extractAllDates] they call are package functions
    that are not among the sources and may keep package-level state (the
    CHANGELOG speaks of pattern tables built once per language and cached).
    For the question of what a call depends on and what it leaves behind,
    that state is a store the callees read and write, and the two entry
    points are written with the store passed from call to call. *)

(** A strategy parser beside the package state it may read and write. *)
Definition StoreParser (S : Type) : Type :=
  parserContext -> S -> result time.Time * S.

(** The seven functions [ParseDate] calls, by call site. *)
Definition StoreStrategies (S : Type) : Type := Strategy -> StoreParser S.


(** One numbered block of [ParseDate], the store passed through the call. *)
Definition attemptWithStore {S : Type} (P : StoreStrategies S)
    (ctx : parserContext) (parserName : string) (s : Strategy)
    (next : list error -> S -> result time.Time * S)
    (parseErrors : list error) (mem : S) : result time.Time * S :=
  if isParserEnabled (settings ctx) parserName then
    match P s ctx mem with
    | (Ok r, mem') => (Ok r, mem')
    | (Err err, mem') =>
        if isSpecificError err then (Err err, mem')
        else next (parseErrors ++ [err]) mem'
    end
  else next parseErrors mem.


(** The numbered blocks of [ps] in a row, the store passed through. *)
Fixpoint dispatchWithStore {S : Type} (P : StoreStrategies S)
    (ctx : parserContext) (ps : list Strategy) (parseErrors : list error)
    (mem : S) : result time.Time * S :=
  match ps with
  | [] =>
      if 0 <? Z.of_nat (length parseErrors)
      then (Err (newInvalidFormatError (input ctx)), mem)
      else (Err (newInvalidFormatError (input ctx)), mem)
  | s :: rest =>
      attemptWithStore P ctx (strategyName s) s (dispatchWithStore P ctx rest)
        parseErrors mem
  end.






(** Callees that count their calls in the store and answer as [P] does. *)
Definition countingCalls (P : Strategies) : StoreStrategies nat :=
  fun s ctx n => (run P s ctx, S n).

(** ** Calendar arithmetic and the absolute-date strategy

    [parser_absolute.go] and [validation.go] are not among the sources; the
    definitions of this part follow the specification. *)

(** Modelled from the spec: the leap-year test of the missing calendar
    arithmetic: divisible by 4, not by 100 unless by 400. *)
Definition isLeapYear (year : Z) : bool :=
  (year mod 4 =? 0) && (negb (year mod 100 =? 0) || (year mod 400 =? 0)).

(** Modelled from the spec: the days-in-month lookup of the missing calendar
    arithmetic, adjusted for leap years; 0 for a month outside 1..12. *)
Definition daysInMonth (year month : Z) : Z :=
  if (month =? 1) || (month =? 3) || (month =? 5) || (month =? 7)
     || (month =? 8) || (month =? 10) || (month =? 12) then 31
  else if (month =? 4) || (month =? 6) || (month =? 9) || (month =? 11) then 30
  else if month =? 2 then (if isLeapYear year then 29 else 28)
  else 0.

(** Modelled from the spec: the date validation of the missing
    [validation.go]: month 1..12 and day valid for the month and year. *)
Definition validDate (year month day : Z) : bool :=
  (1 <=? month) && (month <=? 12) && (1 <=? day) && (day <=? daysInMonth year month).

(** Modelled from the spec: the two-digit year rule of the missing
    absolute-date strategy: 00..69 are 2000..2069, 70..99 are 1970..1999. *)
Definition expandTwoDigitYear (yy : Z) : Z :=
  if yy <? 70 then 2000 + yy else 1900 + yy.

(** Modelled from the spec: the numeric grammar of the missing
    absolute-date strategy reads decimal digits of the input text. *)
Definition isDigit (c : ascii) : bool :=
  let n := Z.of_nat (nat_of_ascii c) in (48 <=? n) && (n <=? 57).

(** The value of a digit, and the digit of a value 0..9. *)
Definition digitValue (c : ascii) : Z := Z.of_nat (nat_of_ascii c) - 48.

Definition digitChar (d : Z) : ascii := ascii_of_nat (Z.to_nat (48 + d)).

(** Modelled from the spec: a numeric component of the missing strategy's
    grammar: the longest run of digits at the head of [s], and what follows
    it. *)
Fixpoint spanDigits (s : string) : string * string :=
  match s with
  | EmptyString => (EmptyString, EmptyString)
  | String c rest =>
      if isDigit c
      then (String c (fst (spanDigits rest)), snd (spanDigits rest))
      else (EmptyString, s)
  end.

(** The number a run of digits writes, most significant digit first. *)
Fixpoint numberFrom (acc : Z) (digits : string) : Z :=
  match digits with
  | EmptyString => acc
  | String c rest => numberFrom (acc * 10 + digitValue c) rest
  end.

Definition number (digits : string) : Z := numberFrom 0 digits.

(** [len(s)]. *)
Definition strlen (s : string) : Z := Z.of_nat (String.length s).

(** Modelled from the spec: the shape of both grammars of the missing
    strategy, which must consume the entire input: three runs of digits with
    the separator [sep] between them and nothing after; the runs, as
    written. *)
Definition threeFields (sep : ascii) (s : string)
    : option (string * string * string) :=
  let '(f1, r1) := spanDigits s in
  match r1 with
  | String c1 r1' =>
      if Ascii.eqb c1 sep then
        let '(f2, r2) := spanDigits r1' in
        match r2 with
        | String c2 r2' =>
            if Ascii.eqb c2 sep then
              let '(f3, r3) := spanDigits r2' in
              match r3 with
              | EmptyString => Some (f1, f2, f3)
              | _ => None
              end
            else None
        | EmptyString => None
        end
      else None
  | EmptyString => None
  end.

(** Modelled from the spec: the assembly step of the missing absolute-date
    strategy: a calendar-impossible date is the invalid-date failure, a
    valid one is that date at midnight in the default timezone. *)
Definition assembleDate (year month day : Z) (tz : time.Location) : result time.Time :=
  if validDate year month day then Ok (time.Date year month day 0 0 0 0 tz)
  else if (1 <=? month) && (month <=? 12)
       then Err (ErrInvalidDate "day out of range for month")
       else Err (ErrInvalidDate "month out of range").

(** Modelled from the spec: the auto-detection of the missing disambiguation
    policy, triggered when the ordering preference is left unset: a first
    component above 12 is the day, a second component above 12 makes the
    first the month, otherwise the configured or default ordering stands. *)
Definition detectOrder (autoDetect : bool) (order : string) (a b : Z) : string :=
  if autoDetect then
    if 12 <? a then "DMY"
    else if 12 <? b then "MDY"
    else order
  else order.

(** Modelled from the spec: the strict-mode rule of the missing
    disambiguation policy: with the ordering left unset, a numeric date of
    which both the month-day and the day-month reading are calendar-valid
    is ambiguous. *)
Definition isAmbiguous (strict autoDetect : bool) (year a b : Z) : bool :=
  strict && autoDetect && validDate year a b && validDate year b a.

(** Modelled from the spec: the missing [parseAbsolute], for the two
    grammars the statements below are about: the ISO-8601 calendar date
    [YYYY-MM-DD], read as year, month, day whatever the ordering preference,
    and the numeric date [N/N/Y] with one or two digits in each leading
    component and a year of two or four digits, read day-month under
    ["DMY"] and month-day otherwise; any other text is not recognised. *)
Definition parseAbsoluteModel : Parser := fun ctx =>
  let s := settings ctx in
  let tz := default time.UTC (PreferredTimezone s) in
  match threeFields "-" (input ctx) with
  | Some (fy, fm, fd) =>
      if (strlen fy =? 4) && (strlen fm =? 2) && (strlen fd =? 2)
      then assembleDate (number fy) (number fm) (number fd) tz
      else Err (errorString "no absolute date pattern matched")
  | None =>
      match threeFields "/" (input ctx) with
      | Some (fa, fb, fy) =>
          if ((strlen fa =? 1) || (strlen fa =? 2))
             && ((strlen fb =? 1) || (strlen fb =? 2))
             && ((strlen fy =? 2) || (strlen fy =? 4))
          then
            let a := number fa in
            let b := number fb in
            let year :=
              if strlen fy =? 2 then expandTwoDigitYear (number fy)
              else number fy in
            if isAmbiguous (Strict s) (autoDetectDateOrder ctx) year a b
            then Err (ErrAmbiguousDate (input ctx))
            else if String.eqb
                      (detectOrder (autoDetectDateOrder ctx) (DateOrder s) a b)
                      "DMY"
                 then assembleDate year b a tz
                 else assembleDate year a b tz
          else Err (errorString "no absolute date pattern matched")
      | None => Err (errorString "no absolute date pattern matched")
      end
  end.

(** Two decimal digits, as the month and the day of an ISO-8601 date are
    written. *)
Definition twoDigits (n : Z) : string :=
  String (digitChar (n / 10)) (String (digitChar (n mod 10)) EmptyString).

(** Four decimal digits, as the year of an ISO-8601 date is written. *)
Definition fourDigits (n : Z) : string :=
  String (digitChar (n / 1000))
    (String (digitChar ((n / 100) mod 10))
      (String (digitChar ((n / 10) mod 10))
        (String (digitChar (n mod 10)) EmptyString))).

(** The text [YYYY-MM-DD] of a calendar date. *)
Definition isoDate (year month day : Z) : string :=
  String.append (fourDigits year)
    (String "-" (String.append (twoDigits month) (String "-" (twoDigits day)))).


(** A run of decimal digits (possibly empty). *)
Fixpoint allDigits (s : string) : bool :=
  match s with
  | EmptyString => true
  | String c rest => isDigit c && allDigits rest
  end.

(** A text that is not a run of decimal digits. *)
Definition hasNonDigit (s : string) : bool := negb (allDigits s).

(** A timestamp strategy reads runs of digits (Unix seconds and
    milliseconds) and nothing else: what the statements about absolute
    dates ask of whichever [parseTimestamp] runs before [parseAbsolute]. *)
Definition rejectsNonDigits (p : Parser) : Prop :=
  forall ctx, hasNonDigit (input ctx) = true ->
    exists e, p ctx = Err e /\ isSpecificError e = false.

(** A strategy that recognises nothing: the generic no-match failure. *)
Definition noMatch : Parser := fun _ => Err (errorString "no match").

(** The absolute-date model in its place, nothing recognised elsewhere. *)
Definition absoluteOnly : Strategies :=
  mkStrategies noMatch parseAbsoluteModel noMatch noMatch noMatch noMatch noMatch.

(** A process in which the clock reads October 2, 2024, 12:00 UTC and the
    registry holds English. *)
Definition runtime0 : Runtime :=
  mkRuntime (time.Date 2024 10 2 12 0 0 0 time.UTC) [English].

(** [&Settings{}]. *)
Definition emptySettings : Settings :=
  mkSettings "" [] time.zeroTime [] false None "".

(** ** The extraction engine

    [extractAllDates] is not among the sources; it is modelled from section
    4.5 of the specification. *)

(** Modelled from the spec: the two collaborators of the missing scan: the
    heuristic pre-filter on offsets, and a strategy parser run with partial
    consumption at an offset, which yields the candidate it finds there
    (span, resolved timestamp, confidence) or fails, generically or
    specifically, as it does for a whole input. *)
Record Scanner : Type := mkScanner {
  plausibleStart : string -> Z -> bool;
  matchAt : parserContext -> Strategy -> Z -> result ParsedDate
}.

(** Modelled from the spec: what the missing scan does at one offset: each
    enabled strategy parser is run there; a success is a candidate, and a
    failure of whatever kind is a non-match at that offset (section 7). *)
Fixpoint candidatesAt (X : Scanner) (ctx : parserContext) (off : Z)
    (enabled : list Strategy) : list ParsedDate :=
  match enabled with
  | [] => []
  | st :: rest =>
      match matchAt X ctx st off with
      | Ok m => m :: candidatesAt X ctx off rest
      | Err _ => candidatesAt X ctx off rest
      end
  end.

(** Modelled from the spec: the left-to-right scan of the missing
    [extractAllDates] over every offset of the text the pre-filter lets
    through. *)
Definition discover (X : Scanner) (ctx : parserContext) : list ParsedDate :=
  flat_map
    (fun off =>
       if plausibleStart X (input ctx) off
       then candidatesAt X ctx off (enabledOf ctx priority)
       else [])
    (seqZ 0 (strlen (input ctx))).

(** The half-open span [[Position, Position + Length)] of a match. *)
Definition inSpan (m : ParsedDate) (k : Z) : Prop :=
  Position m <= k < Position m + Length m.

(** Two spans share an offset. *)
Definition spansOverlap (a b : ParsedDate) : bool :=
  Z.max (Position a) (Position b)
    <? Z.min (Position a + Length a) (Position b + Length b).

(** Modelled from the spec: the ranking of the missing overlap resolution:
    descending match length, then descending confidence, then ascending
    start offset. *)
Definition rankedBefore (a b : ParsedDate) : Prop :=
  Length b < Length a \/
  (Length a = Length b /\
   (Confidence b < Confidence a \/
    (Confidence a = Confidence b /\ Position a <= Position b))).

(** Ascending start offset, the order of the final sort. *)
Definition startsBefore (a b : ParsedDate) : Prop :=
  Position a <= Position b.

#[global] Instance rankedBefore_dec : RelDecision rankedBefore.
Proof. intros a b. unfold rankedBefore. apply _. Defined.

#[global] Instance startsBefore_dec : RelDecision startsBefore.
Proof. intros a b. unfold startsBefore. apply _. Defined.

(** Modelled from the spec: the greedy pass of the missing overlap
    resolution: a candidate is accepted when its span overlaps no accepted
    span, and is discarded whole otherwise. *)
Fixpoint acceptGreedy (accepted candidates : list ParsedDate) : list ParsedDate :=
  match candidates with
  | [] => accepted
  | c :: rest =>
      if existsb (spansOverlap c) accepted
      then acceptGreedy accepted rest
      else acceptGreedy (accepted ++ [c]) rest
  end.

(** Modelled from the spec: the missing [extractAllDates]: discover, rank,
    accept greedily, sort the accepted matches by start offset.  The
    failures of the attempts were dropped by [candidatesAt]; none reaches
    the caller, and the error is nil. *)
Definition extractAllDatesModel (X : Scanner) : Extractor := fun ctx =>
  Ok (merge_sort startsBefore
        (acceptGreedy [] (merge_sort rankedBefore (discover X ctx)))).

(** No two matches at different indices share an offset. *)
Definition nonOverlapping (ms : list ParsedDate) : Prop :=
  forall (i j : nat) (a b : ParsedDate),
    i <> j -> ms !! i = Some a -> ms !! j = Some b ->
    forall k, ~ (inSpan a k /\ inSpan b k).

(** The success of an attempt, if it is one. *)
Definition successOf {A : Type} (r : result A) : option A :=
  match r with
  | Ok a => Some a
  | Err _ => None
  end.

(** The candidates of the specification's example text
    ["Meeting Dec 31 and deadline 2025-01-15"]: at offset 8 the incomplete
    strategy finds "Dec 31" and the absolute strategy fails specifically
    (no year follows); at offset 28 the incomplete strategy finds the year
    and the absolute strategy the ISO date; every other attempt finds no
    match. *)
Definition exampleText : string := "Meeting Dec 31 and deadline 2025-01-15".

Definition exampleScanner : Scanner :=
  mkScanner
    (fun _ off => (off =? 8) || (off =? 28))
    (fun ctx st off =>
       let tz := default time.UTC (PreferredTimezone (settings ctx)) in
       match st with
       | SIncomplete =>
           if off =? 8 then
             Ok (mkParsedDate (time.Date 2024 12 31 0 0 0 0 tz) 8 6 "Dec 31" 800)
           else if off =? 28 then
             Ok (mkParsedDate (time.Date 2025 1 1 0 0 0 0 tz) 28 4 "2025" 600)
           else Err (errorString "no match")
       | SAbsolute =>
           if off =? 8 then Err (ErrInvalidDate "no year after Dec 31")
           else if off =? 28 then
             Ok (mkParsedDate (time.Date 2025 1 15 0 0 0 0 tz) 28 10
                   "2025-01-15" 1000)
           else Err (errorString "no match")
       | _ => Err (errorString "no match")
       end).

(** ** Changing the list of enabled parsers *)

(** The settings [s] with [EnableParsers] set to [l]. *)
Definition withParsers (s : Settings) (l : list string) : Settings :=
  {| DateOrder := DateOrder s;
     Languages := Languages s;
     RelativeBase := RelativeBase s;
     EnableParsers := l;
     Strict := Strict s;
     PreferredTimezone := PreferredTimezone s;
     PreferDatesFrom := PreferDatesFrom s |}.

(** The settings [s] with [DateOrder] set to [order]. *)
Definition withDateOrder (s : Settings) (order : string) : Settings :=
  {| DateOrder := order;
     Languages := Languages s;
     RelativeBase := RelativeBase s;
     EnableParsers := EnableParsers s;
     Strict := Strict s;
     PreferredTimezone := PreferredTimezone s;
     PreferDatesFrom := PreferDatesFrom s |}.

(** The context [ctx] with the [EnableParsers] of its settings set to [l]. *)
Definition setParsers (ctx : parserContext) (l : list string) : parserContext :=
  {| input := input ctx;
     settings := withParsers (settings ctx) l;
     autoDetectDateOrder := autoDetectDateOrder ctx;
     languages := languages ctx |}.

(** The strategy parsers do not read [EnableParsers] off their context. *)
Definition ignoresEnableParsers (P : Strategies) : Prop :=
  forall (s : Strategy) (ctx : parserContext) (l : list string),
    run P s (setParsers ctx l) = run P s ctx.

(** ** The [strings] package and string slices, as far as the examples use them *)

Module strings.

(** [strings.Index(s, substr)]: the byte index of the first occurrence of
    [substr] in [s], or -1. *)
Fixpoint Index (s substr : string) : Z :=
  if String.prefix substr s then 0
  else
    match s with
    | EmptyString => -1
    | String _ rest =>
        let i := Index rest substr in
        if i =? -1 then -1 else i + 1
    end.

(** [strings.Split(s, sep)] for a separator of one byte, as at its call in
    [buildSettings]: the texts between the separators, of which there is
    always one. *)
Fixpoint Split (s : string) (sep : ascii) : list string :=
  match s with
  | EmptyString => [EmptyString]
  | String c rest =>
      if Ascii.eqb c sep then EmptyString :: Split rest sep
      else
        match Split rest sep with
        | field :: fields => String c field :: fields
        | [] => [String c EmptyString]
        end
  end.

End strings.

(** The first [n] bytes of [s], and [s] without them. *)
Fixpoint takeBytes (n : nat) (s : string) : string :=
  match n, s with
  | S n', String c rest => String c (takeBytes n' rest)
  | _, _ => EmptyString
  end.

Fixpoint dropBytes (n : nat) (s : string) : string :=
  match n, s with
  | S n', String _ rest => dropBytes n' rest
  | _, _ => s
  end.

(** The slice expressions [s[lo:]] and [s[:hi]]; an index out of range is a
    run-time panic, [None] here. *)
Definition sliceFrom (s : string) (lo : Z) : option string :=
  if (0 <=? lo) && (lo <=? strlen s) then Some (dropBytes (Z.to_nat lo) s)
  else None.

Definition sliceTo (s : string) (hi : Z) : option string :=
  if (0 <=? hi) && (hi <=? strlen s) then Some (takeBytes (Z.to_nat hi) s)
  else None.

(** How a call ends: with a value, with a panic, or not within the number
    of loop iterations it was given. *)
Inductive completion (A : Type) : Type :=
| Returns (a : A)
| Panics
| OutOfFuel.
Arguments Returns {A} a.
Arguments Panics {A}.
Arguments OutOfFuel {A}.

(** ** [examples/web_scraper.go] *)

(** The [for] loop of [removeHTMLTags], [fuel] iterations at most. *)
Fixpoint removeHTMLTagsLoop (fuel : nat) (result : string) : completion string :=
  match fuel with
  | O => OutOfFuel
  | S fuel' =>
      let start := strings.Index result "<" in
      if start =? -1 then Returns result
      else
        match sliceFrom result start with
        | None => Panics
        | Some tail =>
            let end_ := strings.Index tail ">" in
            if end_ =? -1 then Returns result
            else
              match sliceTo result start, sliceFrom result (start + end_ + 1) with
              | Some before, Some after =>
                  removeHTMLTagsLoop fuel'
                    (String.append before (String.append " " after))
              | _, _ => Panics
              end
        end
  end.

(** [removeHTMLTags], with one iteration more than the text has bytes. *)
Definition removeHTMLTags (html : string) : completion string :=
  removeHTMLTagsLoop (S (String.length html)) html.

(** The byte [c] occurs in [s]. *)
Fixpoint containsByte (c : ascii) (s : string) : bool :=
  match s with
  | EmptyString => false
  | String a rest => Ascii.eqb a c || containsByte c rest
  end.

(** Some "<" of [s] has a ">" after it. *)
Fixpoint hasTag (s : string) : bool :=
  match s with
  | EmptyString => false
  | String a rest =>
      (Ascii.eqb a "<" && containsByte ">" rest) || hasTag rest
  end.

(** What [scrapeDates] reaches over the network: [http.Get] and
    [io.ReadAll] on the body of the response. *)
Record Web : Type := mkWeb {
  Response : Type;
  httpGet : string -> result Response;
  readAll : Response -> result string
}.

(** [scrapeDates], with the contexts handed to [extractAllDates] as log. *)
Definition scrapeDates (W : Web) (extractAllDates : Extractor) (rt : Runtime)
    (url : string)
    : completion (list parserContext * result (list ParsedDate)) :=
  match httpGet W url with
  | Err err => Returns ([], Err err)
  | Ok resp =>
      match readAll W resp with
      | Err err => Returns ([], Err err)
      | Ok body =>
          match removeHTMLTags body with
          | Returns content => Returns (ExtractDates extractAllDates rt content None)
          | Panics => Panics
          | OutOfFuel => OutOfFuel
          end
      end
  end.

(** ** [examples/cli_tool.go] *)

(** [buildSettings]; the clock it reads and [time.Parse] are arguments. *)
Definition buildSettings (now : time.Time)
    (timeParse : string -> string -> result time.Time)
    (dateOrder languages : string) (preferFuture : bool) (relative : string)
    : Settings :=
  let PreferDatesFrom' := if preferFuture then "future" else "" in
  let RelativeBase' :=
    if negb (String.eqb relative "") then
      match timeParse "2006-01-02" relative with
      | Ok baseDate => baseDate
      | Err _ => now
      end
    else now in
  {| DateOrder := dateOrder;
     Languages := strings.Split languages ",";
     RelativeBase := RelativeBase';
     EnableParsers := [];
     Strict := false;
     PreferredTimezone := None;
     PreferDatesFrom := PreferDatesFrom' |}.

(** ** Inputs the statements below are evaluated at *)

(** [&Settings{EnableParsers: []string{"timezone"}}]. *)
Definition timezoneOnly : Settings :=
  mkSettings "" [] time.zeroTime ["timezone"] false None "".


(** [&Settings{DateOrder: "MDY", Strict: true}]. *)
Definition strictMDY : Settings :=
  mkSettings "MDY" [] time.zeroTime [] true None "".

(** [&Settings{Strict: true}]. *)
Definition strictUnset : Settings :=
  mkSettings "" [] time.zeroTime [] true None "".





(** * Properties *)

(** ** The dispatch of [ParseDate] *)


Section Dispatch.
Variable P : Strategies.
Variable ctx : parserContext.

Lemma callees_callsOf (l : list Strategy) : map callee (callsOf ctx l) = l.
Proof.
  unfold callsOf. induction l as [|s l IH]; simpl; [reflexivity|].
  rewrite IH. reflexivity.
Qed.

Lemma callsOf_ctx (l : list Strategy) :
  Forall (fun c => callCtx c = ctx) (callsOf ctx l).
Proof. unfold callsOf. induction l; simpl; constructor; auto. Qed.

(** A stopped walk stays stopped when an enabled, generically failing
    parser is put in front of it. *)
Lemma Outcome_step (s : Strategy) (enabled : list Strategy)
    (tr : Trace) (out : result time.Time) :
  failsGenerically P ctx s ->
  Outcome P ctx enabled tr out ->
  Outcome P ctx (s :: enabled) (mkCall s ctx :: tr) out.
Proof.
  intros Hs Hr. destruct Hr as [pre s0 post t E Hpre Hrun|pre s0 post e E Hpre Hrun He|Hall].
  - apply (StopSuccess P ctx _ (s :: pre) s0 post t); [rewrite E|..]; auto.
  - apply (StopSpecific P ctx _ (s :: pre) s0 post e); [rewrite E|..]; auto.
  - apply (Exhausted P ctx (s :: enabled)). constructor; assumption.
Qed.

(** Every walk has one of the three shapes of [Outcome]. *)
Lemma dispatch_Outcome (ps : list Strategy) (parseErrors : list error) :
  Outcome P ctx (enabledOf ctx ps)
    (fst (dispatch P ctx ps parseErrors)) (snd (dispatch P ctx ps parseErrors)).
Proof.
  revert parseErrors.
  induction ps as [|s rest IH]; intros parseErrors; simpl.
  - destruct (0 <? Z.of_nat (length parseErrors));
      apply (Exhausted P ctx []); constructor.
  - unfold attempt.
    destruct (isParserEnabled (settings ctx) (strategyName s)); [|apply IH].
    destruct (run P s ctx) as [t|e] eqn:Hrun.
    + apply (StopSuccess P ctx _ [] s (enabledOf ctx rest) t); auto.
    + destruct (isSpecificError e) eqn:He.
      * apply (StopSpecific P ctx _ [] s (enabledOf ctx rest) e); auto.
      * apply Outcome_step; [exists e; auto | apply IH].
Qed.

Lemma Outcome_prefix enabled tr out :
  Outcome P ctx enabled tr out ->
  exists later, enabled = map callee tr ++ later.
Proof.
  intros [pre s post t E _ _|pre s post e E _ _ _|_]; rewrite callees_callsOf.
  - exists post. rewrite E, <- app_assoc. reflexivity.
  - exists post. rewrite E, <- app_assoc. reflexivity.
  - exists []. rewrite app_nil_r. reflexivity.
Qed.

Lemma Outcome_ctx enabled tr out :
  Outcome P ctx enabled tr out -> Forall (fun c => callCtx c = ctx) tr.
Proof. intros [| |]; apply callsOf_ctx. Qed.




Lemma Ok_not_generic (s : Strategy) (t : time.Time) :
  run P s ctx = Ok t -> ~ failsGenerically P ctx s.
Proof. intros Hok (e & He & _). congruence. Qed.

Lemma specific_not_generic (s : Strategy) (e : error) :
  run P s ctx = Err e -> isSpecificError e = true ->
  ~ failsGenerically P ctx s.
Proof. intros He Hs (e' & He' & Hg). congruence. Qed.
End Dispatch.



(** The two ways a walk ends, without the log: at a parser that does not
    fail generically, whose result is returned, or after the last enabled
    parser. *)
Lemma Outcome_cases (P : Strategies) (ctx : parserContext)
    (enabled : list Strategy) (tr : Trace) (out : result time.Time) :
  Outcome P ctx enabled tr out ->
  (exists pre0 s0 post0,
      enabled = pre0 ++ s0 :: post0 /\
      Forall (failsGenerically P ctx) pre0 /\
      ~ failsGenerically P ctx s0 /\
      map callee tr = pre0 ++ [s0] /\ out = run P s0 ctx) \/
  (Forall (failsGenerically P ctx) enabled /\
   map callee tr = enabled /\
   out = Err (newInvalidFormatError (input ctx))).
Proof.
  intros [pre0 s0 post0 t E Hpre Hrun|pre0 s0 post0 e E Hpre Hrun He|Hall];
    rewrite callees_callsOf.
  - left. exists pre0, s0, post0. repeat split; auto.
    eapply Ok_not_generic; eauto.
  - left. exists pre0, s0, post0. repeat split; auto.
    eapply specific_not_generic; eauto.
  - right. auto.
Qed.



Lemma ParseDate_unfold (P : Strategies) (rt : Runtime)
    (text : string) (opts : option Settings) :
  text <> "" ->
  ParseDate P rt text opts = dispatch P (makeContext rt text opts) priority [].
Proof.
  intros Hne. unfold ParseDate.
  destruct (String.eqb_spec text ""); [contradiction|reflexivity].
Qed.

Lemma ParseDate_Outcome (P : Strategies) (rt : Runtime)
    (text : string) (opts : option Settings) :
  text <> "" ->
  Outcome P (makeContext rt text opts)
    (enabledOf (makeContext rt text opts) priority)
    (fst (ParseDate P rt text opts)) (snd (ParseDate P rt text opts)).
Proof.
  intros Hne. rewrite ParseDate_unfold by assumption. apply dispatch_Outcome.
Qed.

(** ** Which parsers are enabled *)

Lemma isEnabledIn_In (l : list string) (n : string) :
  isEnabledIn l n = true <-> In n l.
Proof.
  induction l as [|a l IH]; simpl; [split; [discriminate|contradiction]|].
  destruct (String.eqb_spec a n) as [->|Hne].
  - split; auto.
  - rewrite IH. split; [auto|]. intros [E|H]; [contradiction|exact H].
Qed.

Lemma enabledOf_sublist (ctx : parserContext) (ps : list Strategy) :
  enabledOf ctx ps `sublist_of` ps.
Proof.
  induction ps as [|s ps IH]; simpl; [constructor|].
  destruct (isParserEnabled (settings ctx) (strategyName s));
    [apply sublist_skip|apply sublist_cons]; exact IH.
Qed.

Lemma priority_NoDup : NoDup priority.
Proof.
  unfold priority.
  repeat (apply NoDup_cons; split;
          [rewrite ?elem_of_cons, elem_of_nil; intuition discriminate|]).
  apply NoDup_nil_2.
Qed.

(** The enabled strategies of [ps] are those whose name is listed in
    [EnableParsers] of the settings of the context. *)
Lemma enabledOf_In (ctx : parserContext) (ps : list Strategy) (s : Strategy) :
  In s (enabledOf ctx ps) <->
  In s ps /\ In (strategyName s) (EnableParsers (settings ctx)).
Proof.
  induction ps as [|a ps IH]; simpl; [tauto|].
  destruct (isParserEnabled (settings ctx) (strategyName a)) eqn:E;
    unfold isParserEnabled in E.
  - apply isEnabledIn_In in E. simpl. rewrite IH.
    split; [intros [->|[H1 H2]]; auto|intros [[->|H1] H2]; auto].
  - rewrite IH. split; [intros [H1 H2]; auto|].
    intros [[->|H1] H2]; [|auto].
    apply isEnabledIn_In in H2. congruence.
Qed.



(** ** Reading decimal fields *)

Lemma digit_cases (k : Z) :
  0 <= k <= 9 ->
  k = 0 \/ k = 1 \/ k = 2 \/ k = 3 \/ k = 4 \/ k = 5 \/ k = 6 \/ k = 7 \/ k = 8 \/ k = 9.
Proof. lia. Qed.

Lemma isDigit_digitChar (k : Z) : 0 <= k <= 9 -> isDigit (digitChar k) = true.
Proof.
  intros Hk. destruct (digit_cases k Hk) as [->|[->|[->|[->|[->|[->|[->|[->|[->| ->]]]]]]]]];
    reflexivity.
Qed.

Lemma digitValue_digitChar (k : Z) : 0 <= k <= 9 -> digitValue (digitChar k) = k.
Proof.
  intros Hk. destruct (digit_cases k Hk) as [->|[->|[->|[->|[->|[->|[->|[->|[->| ->]]]]]]]]];
    reflexivity.
Qed.

Lemma spanDigits_all (f : string) :
  allDigits f = true -> spanDigits f = (f, EmptyString).
Proof.
  induction f as [|c f IH]; simpl; [reflexivity|].
  intros H. apply andb_prop in H as [Hc Hf].
  rewrite Hc, (IH Hf). reflexivity.
Qed.

Lemma spanDigits_app (f : string) (c : ascii) (r : string) :
  allDigits f = true -> isDigit c = false ->
  spanDigits (String.append f (String c r)) = (f, String c r).
Proof.
  intros Hf Hc. induction f as [|d f IH]; simpl.
  - rewrite Hc. reflexivity.
  - simpl in Hf. apply andb_prop in Hf as [Hd Hf].
    rewrite Hd, (IH Hf). reflexivity.
Qed.

Lemma allDigits_app_stop (f : string) (c : ascii) (r : string) :
  isDigit c = false -> allDigits (String.append f (String c r)) = false.
Proof.
  intros Hc. induction f as [|d f IH]; simpl.
  - rewrite Hc. reflexivity.
  - rewrite IH. apply andb_false_r.
Qed.

(** Three digit runs written with a separator between them are read back
    as they were written. *)
Lemma threeFields_written (sep : ascii) (f1 f2 f3 : string) :
  isDigit sep = false ->
  allDigits f1 = true -> allDigits f2 = true -> allDigits f3 = true ->
  threeFields sep (String.append f1 (String sep (String.append f2 (String sep f3))))
  = Some (f1, f2, f3).
Proof.
  intros Hsep H1 H2 H3. unfold threeFields.
  rewrite (spanDigits_app f1 sep _ H1 Hsep).
  rewrite Ascii.eqb_refl.
  rewrite (spanDigits_app f2 sep _ H2 Hsep).
  rewrite Ascii.eqb_refl.
  rewrite (spanDigits_all f3 H3). reflexivity.
Qed.

(** A digit run followed by another character than the separator is no
    first field. *)
Lemma threeFields_other_separator (sep c : ascii) (f1 r : string) :
  isDigit c = false -> Ascii.eqb c sep = false -> allDigits f1 = true ->
  threeFields sep (String.append f1 (String c r)) = None.
Proof.
  intros Hc Hne H1. unfold threeFields.
  rewrite (spanDigits_app f1 c _ H1 Hc), Hne. reflexivity.
Qed.

Lemma allDigits_twoDigits (n : Z) : 0 <= n <= 99 -> allDigits (twoDigits n) = true.
Proof.
  intros Hn. unfold twoDigits. simpl.
  rewrite !isDigit_digitChar by (Z.div_mod_to_equations; lia). reflexivity.
Qed.

Lemma allDigits_fourDigits (n : Z) : 0 <= n <= 9999 -> allDigits (fourDigits n) = true.
Proof.
  intros Hn. unfold fourDigits. simpl.
  rewrite !isDigit_digitChar by (Z.div_mod_to_equations; lia). reflexivity.
Qed.

Lemma number_twoDigits (n : Z) : 0 <= n <= 99 -> number (twoDigits n) = n.
Proof.
  intros Hn. unfold number, twoDigits. simpl.
  rewrite !digitValue_digitChar by (Z.div_mod_to_equations; lia).
  Z.div_mod_to_equations; lia.
Qed.

Lemma number_fourDigits (n : Z) : 0 <= n <= 9999 -> number (fourDigits n) = n.
Proof.
  intros Hn. unfold number, fourDigits. simpl.
  rewrite !digitValue_digitChar by (Z.div_mod_to_equations; lia).
  Z.div_mod_to_equations; lia.
Qed.

Lemma hasNonDigit_nonempty (text : string) : hasNonDigit text = true -> text <> "".
Proof. intros H ->. discriminate H. Qed.

Lemma hasNonDigit_isoDate (y m d : Z) : hasNonDigit (isoDate y m d) = true.
Proof.
  unfold hasNonDigit, isoDate.
  rewrite allDigits_app_stop by reflexivity. reflexivity.
Qed.

(** The ISO grammar of the absolute-date model on a written ISO date. *)
Lemma parseAbsoluteModel_iso (ctx : parserContext) (y m d : Z) :
  input ctx = isoDate y m d ->
  0 <= y <= 9999 -> 0 <= m <= 99 -> 0 <= d <= 99 ->
  parseAbsoluteModel ctx
  = assembleDate y m d (default time.UTC (PreferredTimezone (settings ctx))).
Proof.
  intros Hin Hy Hm Hd. unfold parseAbsoluteModel. rewrite Hin. unfold isoDate.
  rewrite threeFields_written;
    auto using allDigits_twoDigits, allDigits_fourDigits.
  rewrite number_fourDigits, !number_twoDigits by assumption.
  reflexivity.
Qed.

(** ** [ParseDate] when the absolute-date strategy decides *)

Lemma dispatch_absolute_decides (P : Strategies) (ctx : parserContext)
    (parseErrors : list error) :
  failsGenerically P ctx STimestamp ->
  isParserEnabled (settings ctx) "absolute" = true ->
  ~ failsGenerically P ctx SAbsolute ->
  snd (dispatch P ctx priority parseErrors) = parseAbsolute P ctx.
Proof.
  intros (e0 & He0 & Hg0) Hen Hdec.
  assert (Hstep : forall k errs,
             snd (attempt P ctx "absolute" SAbsolute k errs) = parseAbsolute P ctx).
  { intros k errs. unfold attempt. rewrite Hen. simpl run.
    destruct (parseAbsolute P ctx) as [t|e] eqn:Hrun; [reflexivity|].
    destruct (isSpecificError e) eqn:He; [reflexivity|].
    exfalso. apply Hdec. exists e. auto. }
  simpl dispatch. unfold attempt at 1. simpl run in *. rewrite He0, Hg0.
  destruct (isParserEnabled (settings ctx) "timestamp");
    simpl snd; apply Hstep.
Qed.

Lemma ParseDate_absolute_decides (P : Strategies) (rt : Runtime)
    (text : string) (opts : option Settings) :
  rejectsNonDigits (parseTimestamp P) ->
  hasNonDigit text = true ->
  isParserEnabled (normalizeSettings (Now rt) (orDefault opts)) "absolute" = true ->
  ~ failsGenerically P (makeContext rt text opts) SAbsolute ->
  snd (ParseDate P rt text opts) = parseAbsolute P (makeContext rt text opts).
Proof.
  intros Hts Hnd Habs Hdec.
  rewrite ParseDate_unfold by (apply hasNonDigit_nonempty; assumption).
  apply dispatch_absolute_decides; auto.
  exact (Hts (makeContext rt text opts) Hnd).
Qed.

(** ** Specific and generic failures *)



(** ** Empty input and exhausted dispatch *)

Lemma input_makeContext (rt : Runtime) (text : string) (opts : option Settings) :
  input (makeContext rt text opts) = text.
Proof. reflexivity. Qed.

Lemma settings_makeContext (rt : Runtime) (text : string) (opts : option Settings) :
  settings (makeContext rt text opts) = normalizeSettings (Now rt) (orDefault opts).
Proof. reflexivity. Qed.

(** ** Failures inside the scan *)

Lemma candidatesAt_successes (X X' : Scanner) (ctx : parserContext) (off : Z)
    (l : list Strategy) :
  (forall st, successOf (matchAt X ctx st off) = successOf (matchAt X' ctx st off)) ->
  candidatesAt X ctx off l = candidatesAt X' ctx off l.
Proof.
  intros H. induction l as [|st l IH]; simpl; [reflexivity|].
  specialize (H st).
  destruct (matchAt X ctx st off), (matchAt X' ctx st off); simpl in H;
    try discriminate; congruence.
Qed.

(** The candidates of a scan are decided by the offsets the pre-filter lets
    through and by the attempts that succeed. *)
Lemma discover_successes (X X' : Scanner) (ctx : parserContext) :
  (forall off, plausibleStart X (input ctx) off = plausibleStart X' (input ctx) off) ->
  (forall st off,
      successOf (matchAt X ctx st off) = successOf (matchAt X' ctx st off)) ->
  discover X ctx = discover X' ctx.
Proof.
  intros Hp Hm. unfold discover. apply flat_map_ext. intros off.
  rewrite Hp. destruct (plausibleStart X' (input ctx) off); [|reflexivity].
  apply candidatesAt_successes. intros st. apply Hm.
Qed.

Lemma candidatesAt_In (X : Scanner) (ctx : parserContext) (off : Z)
    (l : list Strategy) (m : ParsedDate) :
  In m (candidatesAt X ctx off l) ->
  exists st, In st l /\ matchAt X ctx st off = Ok m.
Proof.
  induction l as [|st l IH]; simpl; [contradiction|].
  destruct (matchAt X ctx st off) as [m'|e] eqn:E.
  - intros [->|H].
    + exists st. auto.
    + destruct (IH H) as (st' & Hin & Hm). exists st'. auto.
  - intros H. destruct (IH H) as (st' & Hin & Hm). exists st'. auto.
Qed.

Lemma discover_In (X : Scanner) (ctx : parserContext) (m : ParsedDate) :
  In m (discover X ctx) ->
  exists off st,
    0 <= off < strlen (input ctx) /\
    plausibleStart X (input ctx) off = true /\
    In st (enabledOf ctx priority) /\
    matchAt X ctx st off = Ok m.
Proof.
  unfold discover. intros H. apply in_flat_map in H as (off & Hoff & H).
  apply list_elem_of_In, elem_of_seqZ in Hoff.
  destruct (plausibleStart X (input ctx) off) eqn:Hp; [|contradiction].
  destruct (candidatesAt_In X ctx off _ m H) as (st & Hst & Hm).
  exists off, st. repeat split; auto; lia.
Qed.

Lemma acceptGreedy_In (acc cands : list ParsedDate) (m : ParsedDate) :
  In m (acceptGreedy acc cands) -> In m acc \/ In m cands.
Proof.
  revert acc. induction cands as [|c rest IH]; intros acc; simpl; [auto|].
  destruct (existsb (spansOverlap c) acc).
  - intros H. destruct (IH acc H); auto.
  - intros H. destruct (IH (acc ++ [c]) H) as [H'|H']; [|auto].
    apply in_app_or in H' as [H'|[->|[]]]; auto.
Qed.

Lemma extractAllDatesModel_In (X : Scanner) (ctx : parserContext) (m : ParsedDate) :
  In m (matchesOf (extractAllDatesModel X ctx)) -> In m (discover X ctx).
Proof.
  unfold extractAllDatesModel. simpl. intros H.
  apply (Permutation_in m (merge_sort_Permutation startsBefore _)) in H.
  apply acceptGreedy_In in H as [[]|H].
  exact (Permutation_in m (merge_sort_Permutation rankedBefore _) H).
Qed.

(** C6: on the empty string [ParseDate] and [ExtractDates] return the
    empty-input failure with no strategy parser (and no extraction) called,
    whatever the settings; on a non-empty input on which every enabled parser
    fails generically [ParseDate] returns the invalid-format failure; and
    [ExtractDates] over the extraction engine of the specification returns
    an error only for the empty text, that error being the empty-input
    failure, whatever the attempts at the offsets of the text fail with: a
    failed attempt, generic or specific, is a non-match at its offset (two
    scans that agree on the attempts that succeed return the same), and
    every match returned is the success of an enabled strategy at an offset
    of the text. *)
Theorem C6_empty_input_and_invalid_format (P : Strategies) (E : Extractor)
    (X : Scanner) (rt : Runtime) (opts : option Settings) :
  ParseDate P rt "" opts = ([], Err ErrEmptyInput) /\
  ExtractDates E rt "" opts = ([], Err ErrEmptyInput) /\
  (forall text,
      text <> "" ->
      Forall (failsGenerically P (makeContext rt text opts))
        (enabledOf (makeContext rt text opts) priority) ->
      snd (ParseDate P rt text opts) = Err (ErrInvalidFormat text)) /\
  (forall text e,
      snd (ExtractDates (extractAllDatesModel X) rt text opts) = Err e ->
      text = "" /\ e = ErrEmptyInput) /\
  (forall text (X' : Scanner),
      (forall off, plausibleStart X text off = plausibleStart X' text off) ->
      (forall st off,
          successOf (matchAt X (makeContext rt text opts) st off)
          = successOf (matchAt X' (makeContext rt text opts) st off)) ->
      ExtractDates (extractAllDatesModel X) rt text opts
      = ExtractDates (extractAllDatesModel X') rt text opts) /\
  (forall text m,
      In m (matchesOf (snd (ExtractDates (extractAllDatesModel X) rt text opts))) ->
      exists off st,
        0 <= off < strlen text /\
        plausibleStart X text off = true /\
        In (strategyName st)
          (EnableParsers (normalizeSettings (Now rt) (orDefault opts))) /\
        matchAt X (makeContext rt text opts) st off = Ok m).
Proof.
  split; [reflexivity|]. split; [reflexivity|]. split; [|split; [|split]].
  - intros text Hne Hall.
    pose proof (ParseDate_Outcome P rt text opts Hne) as Hout.
    destruct (Outcome_cases _ _ _ _ _ Hout)
      as [(pre0 & s0 & post0 & E0 & _ & Hs0 & _)|(_ & _ & Hres)].
    + exfalso. rewrite E0 in Hall. apply Forall_app in Hall as [_ Hall].
      inversion Hall; auto.
    + rewrite Hres. reflexivity.
  - intros text e. unfold ExtractDates.
    destruct (String.eqb_spec text "") as [->|Hne]; simpl.
    + intros He. injection He as <-. auto.
    + discriminate.
  - intros text X' Hp Hm. unfold ExtractDates.
    destruct (String.eqb text ""); [reflexivity|].
    unfold extractAllDatesModel.
    rewrite (discover_successes X X' (makeContext rt text opts) Hp Hm).
    reflexivity.
  - intros text m. unfold ExtractDates.
    destruct (String.eqb text ""); simpl; [contradiction|].
    intros H. apply (extractAllDatesModel_In X) in H.
    destruct (discover_In X _ m H) as (off & st & Hoff & Hp & Hst & Hm).
    exists off, st. repeat split; try tauto.
    apply enabledOf_In in Hst as [_ Hst]. exact Hst.
Qed.

(** ** Settings normalisation *)

Lemma EnableParsers_normalize (now : time.Time) (s : Settings) :
  EnableParsers s <> [] ->
  EnableParsers (normalizeSettings now s) = EnableParsers s.
Proof.
  intros Hne. unfold normalizeSettings. simpl.
  destruct (EnableParsers s); [contradiction|reflexivity].
Qed.

(** C7: [normalizeSettings] gives each unset field its default ([DateOrder]
    "MDY", [Languages] ["en"], [RelativeBase] the current time,
    [EnableParsers] the full list, [PreferredTimezone] time.UTC,
    [PreferDatesFrom] "future", which are the values of [DefaultSettings]
    but for the base time) and keeps each field that is set, [Strict]
    included; every strategy parser called by [ParseDate], and the
    extraction called by [ExtractDates], is handed that snapshot. *)
Theorem C7_normalizeSettings_defaults (now : time.Time) (s : Settings) :
  ((DateOrder s = "" -> DateOrder (normalizeSettings now s) = "MDY") /\
   (Languages s = [] -> Languages (normalizeSettings now s) = ["en"]) /\
   (time.IsZero (RelativeBase s) = true -> RelativeBase (normalizeSettings now s) = now) /\
   (EnableParsers s = [] ->
    EnableParsers (normalizeSettings now s)
    = ["timestamp"; "relative"; "absolute"; "timezone";
       "time"; "incomplete"; "ordinal"; "week"]) /\
   (PreferredTimezone s = None ->
    PreferredTimezone (normalizeSettings now s) = Some time.UTC) /\
   (PreferDatesFrom s = "" -> PreferDatesFrom (normalizeSettings now s) = "future")) /\
  ((DateOrder s <> "" -> DateOrder (normalizeSettings now s) = DateOrder s) /\
   (Languages s <> [] -> Languages (normalizeSettings now s) = Languages s) /\
   (time.IsZero (RelativeBase s) = false ->
    RelativeBase (normalizeSettings now s) = RelativeBase s) /\
   (EnableParsers s <> [] ->
    EnableParsers (normalizeSettings now s) = EnableParsers s) /\
   (PreferredTimezone s <> None ->
    PreferredTimezone (normalizeSettings now s) = PreferredTimezone s) /\
   (PreferDatesFrom s <> "" ->
    PreferDatesFrom (normalizeSettings now s) = PreferDatesFrom s) /\
   Strict (normalizeSettings now s) = Strict s) /\
  normalizeSettings now emptySettings
  = {| DateOrder := DateOrder DefaultSettings;
       Languages := Languages DefaultSettings;
       RelativeBase := now;
       EnableParsers := EnableParsers DefaultSettings;
       Strict := Strict DefaultSettings;
       PreferredTimezone := PreferredTimezone DefaultSettings;
       PreferDatesFrom := PreferDatesFrom DefaultSettings |} /\
  (forall (P : Strategies) (E : Extractor) (rt : Runtime)
          (text : string) (opts : option Settings),
      Forall (fun c => settings (callCtx c)
                       = normalizeSettings (Now rt) (orDefault opts))
        (fst (ParseDate P rt text opts)) /\
      Forall (fun c => settings c = normalizeSettings (Now rt) (orDefault opts))
        (fst (ExtractDates E rt text opts))).
Proof.
  split; [|split; [|split]].
  - unfold normalizeSettings; simpl.
    repeat split; intros ->; reflexivity.
  - unfold normalizeSettings; simpl. repeat split.
    + intros H. destruct (String.eqb_spec (DateOrder s) ""); [contradiction|reflexivity].
    + intros H. destruct (Languages s); [contradiction|reflexivity].
    + intros ->. reflexivity.
    + intros H. destruct (EnableParsers s); [contradiction|reflexivity].
    + intros H. destruct (PreferredTimezone s); [reflexivity|contradiction].
    + intros H. destruct (String.eqb_spec (PreferDatesFrom s) "");
        [contradiction|reflexivity].
  - reflexivity.
  - intros P E rt text opts. split.
    + destruct (String.eqb_spec text "") as [->|Hne].
      * constructor.
      * pose proof (ParseDate_Outcome P rt text opts Hne) as Hout.
        apply Outcome_ctx in Hout.
        eapply Forall_impl; [exact Hout|]. intros c ->. reflexivity.
    + unfold ExtractDates. destruct (String.eqb text ""); simpl.
      * constructor.
      * constructor; [reflexivity|constructor].
Qed.

(** ** What a call reads besides its arguments *)






(** The store after a walk of callees that count their calls: one more for
    each parser the walk of [dispatch] calls. *)
Lemma dispatchWithStore_counts (Q : Strategies) (ctx : parserContext)
    (ps : list Strategy) (errs : list error) (n : nat) :
  dispatchWithStore (countingCalls Q) ctx ps errs n
  = (snd (dispatch Q ctx ps errs), (n + length (fst (dispatch Q ctx ps errs)))%nat).
Proof.
  revert errs n. induction ps as [|s rest IH]; intros errs n; simpl.
  - destruct (0 <? Z.of_nat (length errs)); simpl; rewrite Nat.add_0_r;
      reflexivity.
  - unfold attemptWithStore, attempt, countingCalls at 1.
    destruct (isParserEnabled (settings ctx) (strategyName s)); [|apply IH].
    destruct (run Q s ctx) as [t|e]; simpl.
    + f_equal. lia.
    + destruct (isSpecificError e); simpl.
      * f_equal. lia.
      * rewrite IH. f_equal. lia.
Qed.


(** ** The "timezone" entry of [EnableParsers] *)

Lemma timezone_is_no_strategy (s : Strategy) : strategyName s <> "timezone".
Proof. destruct s; discriminate. Qed.

(** Two walks over contexts that enable the same strategies and on which the
    parsers answer alike call the same parsers and end alike. *)
Lemma dispatch_same_gates (P : Strategies) (ctx1 ctx2 : parserContext)
    (ps : list Strategy) :
  input ctx1 = input ctx2 ->
  (forall s, isParserEnabled (settings ctx1) (strategyName s)
             = isParserEnabled (settings ctx2) (strategyName s)) ->
  (forall s, run P s ctx1 = run P s ctx2) ->
  forall errs1 errs2,
    map callee (fst (dispatch P ctx1 ps errs1))
    = map callee (fst (dispatch P ctx2 ps errs2)) /\
    snd (dispatch P ctx1 ps errs1) = snd (dispatch P ctx2 ps errs2).
Proof.
  intros Hin Hgate Hrun. induction ps as [|s rest IH]; intros errs1 errs2; simpl.
  - rewrite Hin.
    destruct (0 <? Z.of_nat (length errs1)), (0 <? Z.of_nat (length errs2)); auto.
  - unfold attempt. rewrite Hgate, Hrun.
    destruct (isParserEnabled (settings ctx2) (strategyName s)); [|apply IH].
    destruct (run P s ctx2) as [t|e]; [auto|].
    destruct (isSpecificError e); [auto|]. simpl.
    destruct (IH (errs1 ++ [e]) (errs2 ++ [e])) as [-> ->]. auto.
Qed.

Lemma dispatch_none_enabled (P : Strategies) (ctx : parserContext)
    (ps : list Strategy) (errs : list error) :
  (forall s, isParserEnabled (settings ctx) (strategyName s) = false) ->
  dispatch P ctx ps errs = ([], Err (newInvalidFormatError (input ctx))).
Proof.
  intros Hoff. revert errs. induction ps as [|s rest IH]; intros errs; simpl.
  - destruct (0 <? Z.of_nat (length errs)); reflexivity.
  - unfold attempt. rewrite Hoff. apply IH.
Qed.

Lemma makeContext_withParsers (rt : Runtime) (text : string) (s : Settings)
    (l : list string) :
  l <> [] ->
  makeContext rt text (Some (withParsers s l))
  = setParsers (makeContext rt text (Some s)) l.
Proof.
  intros Hl. unfold makeContext, setParsers, normalizeSettings, withParsers; simpl.
  destruct l; [contradiction|reflexivity].
Qed.

(** C10, as amended: no block of [ParseDate] is gated on "timezone": two
    non-empty lists of enabled parsers that differ only in the presence of
    "timezone" make [ParseDate] call the same parsers and, the parsers not
    reading the list themselves, return the same result; and with
    [EnableParsers] exactly ["timezone"] a non-empty input gets the
    invalid-format failure with no strategy parser called. *)
Theorem C10_timezone_never_dispatched (P : Strategies) (rt : Runtime)
    (text : string) (s : Settings) :
  text <> "" ->
  (forall l1 l2 : list string,
      l1 <> [] -> l2 <> [] ->
      (forall n, n <> "timezone" -> isEnabledIn l1 n = isEnabledIn l2 n) ->
      ignoresEnableParsers P ->
      map callee (fst (ParseDate P rt text (Some (withParsers s l1))))
      = map callee (fst (ParseDate P rt text (Some (withParsers s l2)))) /\
      snd (ParseDate P rt text (Some (withParsers s l1)))
      = snd (ParseDate P rt text (Some (withParsers s l2)))) /\
  (EnableParsers s = ["timezone"] ->
   ParseDate P rt text (Some s) = ([], Err (ErrInvalidFormat text))).
Proof.
  intros Hne. split.
  - intros l1 l2 Hl1 Hl2 Hsame Hign.
    rewrite !ParseDate_unfold by assumption.
    rewrite !makeContext_withParsers by assumption.
    apply dispatch_same_gates.
    + reflexivity.
    + intros st. unfold isParserEnabled. simpl.
      apply Hsame, timezone_is_no_strategy.
    + intros st. rewrite !Hign. reflexivity.
  - intros Hs. rewrite ParseDate_unfold by assumption.
    rewrite dispatch_none_enabled; [reflexivity|].
    intros st. rewrite settings_makeContext. unfold isParserEnabled.
    rewrite EnableParsers_normalize by (simpl; rewrite Hs; discriminate).
    simpl. rewrite Hs. destruct st; reflexivity.
Qed.

(** ** The absolute-date strategy of the specification under [ParseDate] *)

Lemma timezone_after_normalize (now : time.Time) (s : Settings) :
  default time.UTC (PreferredTimezone (normalizeSettings now s))
  = default time.UTC (PreferredTimezone s).
Proof. unfold normalizeSettings; simpl. destruct (PreferredTimezone s); reflexivity. Qed.

Lemma assembleDate_valid (y m d : Z) (tz : time.Location) :
  validDate y m d = true -> assembleDate y m d tz = Ok (time.Date y m d 0 0 0 0 tz).
Proof. intros Hv. unfold assembleDate. rewrite Hv. reflexivity. Qed.

Lemma validDate_bounds (y m d : Z) :
  validDate y m d = true -> 1 <= m <= 12 /\ 1 <= d <= 31.
Proof.
  unfold validDate, daysInMonth. intros H.
  repeat (apply andb_prop in H as [H ?]).
  repeat match goal with
         | Hb : (_ <=? _) = true |- _ => apply Z.leb_le in Hb
         end.
  split; [lia|].
  repeat match goal with
         | Hd : context [if ?b then _ else _] |- _ => destruct b
         end; lia.
Qed.

(** The absolute-date model, once [ParseDate] reaches it with a result that
    is a success or a specific failure, gives the result of [ParseDate]. *)
Lemma ParseDate_absolute_model (P : Strategies) (rt : Runtime)
    (text : string) (opts : option Settings) (r : result time.Time) :
  parseAbsolute P = parseAbsoluteModel ->
  rejectsNonDigits (parseTimestamp P) ->
  isParserEnabled (normalizeSettings (Now rt) (orDefault opts)) "absolute" = true ->
  hasNonDigit text = true ->
  parseAbsoluteModel (makeContext rt text opts) = r ->
  match r with Ok _ => True | Err e => isSpecificError e = true end ->
  snd (ParseDate P rt text opts) = r.
Proof.
  intros Hmodel Hts Habs Hnd Hr Hkind.
  rewrite ParseDate_absolute_decides; auto.
  - rewrite Hmodel. exact Hr.
  - intros (e & He & Hg). simpl in He. rewrite Hmodel in He.
    rewrite <- Hr, He in Hkind. congruence.
Qed.

(** C8, as amended: for every valid ISO-8601 calendar date written
    [YYYY-MM-DD] and every configuration that enables the absolute parser
    ([EnableParsers] empty or naming "absolute"), [ParseDate] returns that
    calendar date at midnight in the default timezone; the result is the
    same under every [DateOrder]. *)
Theorem C8_iso_date_at_midnight (P : Strategies) (rt : Runtime)
    (s : Settings) (y m d : Z) :
  parseAbsolute P = parseAbsoluteModel ->
  rejectsNonDigits (parseTimestamp P) ->
  isParserEnabled (normalizeSettings (Now rt) s) "absolute" = true ->
  0 <= y <= 9999 ->
  validDate y m d = true ->
  forall order : string,
    snd (ParseDate P rt (isoDate y m d) (Some (withDateOrder s order)))
    = Ok (time.Date y m d 0 0 0 0 (default time.UTC (PreferredTimezone s))).
Proof.
  intros Hmodel Hts Habs Hy Hv order.
  destruct (validDate_bounds y m d Hv) as [Hm Hd].
  apply ParseDate_absolute_model;
    [exact Hmodel|exact Hts|exact Habs|apply hasNonDigit_isoDate| |exact I].
  rewrite (parseAbsoluteModel_iso _ y m d) by (try reflexivity; lia).
  rewrite settings_makeContext, timezone_after_normalize.
  apply assembleDate_valid, Hv.
Qed.

(** The numeric grammar of the absolute-date model on three written fields. *)
Lemma parseAbsoluteModel_numeric (ctx : parserContext) (fa fb fy : string) :
  input ctx = String.append fa (String "/" (String.append fb (String "/" fy))) ->
  allDigits fa = true -> allDigits fb = true -> allDigits fy = true ->
  ((strlen fa =? 1) || (strlen fa =? 2))
  && ((strlen fb =? 1) || (strlen fb =? 2))
  && ((strlen fy =? 2) || (strlen fy =? 4)) = true ->
  parseAbsoluteModel ctx
  = let s := settings ctx in
    let tz := default time.UTC (PreferredTimezone s) in
    let year :=
      if strlen fy =? 2 then expandTwoDigitYear (number fy) else number fy in
    if isAmbiguous (Strict s) (autoDetectDateOrder ctx) year (number fa) (number fb)
    then Err (ErrAmbiguousDate (input ctx))
    else if String.eqb
              (detectOrder (autoDetectDateOrder ctx) (DateOrder s)
                 (number fa) (number fb)) "DMY"
         then assembleDate year (number fb) (number fa) tz
         else assembleDate year (number fa) (number fb) tz.
Proof.
  intros Hin Ha Hb Hy Hlen. unfold parseAbsoluteModel.
  rewrite Hin at 1.
  rewrite threeFields_other_separator by auto.
  rewrite Hin at 1.
  rewrite threeFields_written by auto.
  rewrite Hlen. reflexivity.
Qed.







(** C5: with [Strict] set and [DateOrder] left unset, [ParseDate] on
    "01/02/2024" returns the ambiguous-date failure; with [DateOrder] set to
    "MDY" it returns January 2, 2024 (at midnight in the default timezone),
    strict or not.  The absolute strategy is the one of the specification,
    enabled and reached. *)
Theorem C5_strict_ambiguity (P : Strategies) (rt : Runtime) (s : Settings) :
  parseAbsolute P = parseAbsoluteModel ->
  rejectsNonDigits (parseTimestamp P) ->
  isParserEnabled (normalizeSettings (Now rt) s) "absolute" = true ->
  (Strict s = true -> DateOrder s = "" ->
   snd (ParseDate P rt "01/02/2024" (Some s)) = Err (ErrAmbiguousDate "01/02/2024")) /\
  (DateOrder s = "MDY" ->
   snd (ParseDate P rt "01/02/2024" (Some s))
   = Ok (time.Date 2024 1 2 0 0 0 0 (default time.UTC (PreferredTimezone s)))).
Proof.
  intros Hmodel Hts Habs. split.
  - intros Hstrict Horder.
    apply ParseDate_absolute_model;
      [exact Hmodel|exact Hts|exact Habs|reflexivity| |reflexivity].
    rewrite (parseAbsoluteModel_numeric _ "01" "02" "2024") by reflexivity.
    unfold makeContext, normalizeSettings; simpl.
    rewrite Hstrict, Horder. reflexivity.
  - intros Horder.
    apply ParseDate_absolute_model;
      [exact Hmodel|exact Hts|exact Habs|reflexivity| |exact I].
    rewrite (parseAbsoluteModel_numeric _ "01" "02" "2024") by reflexivity.
    unfold makeContext, normalizeSettings; simpl.
    rewrite Horder. simpl.
    destruct (Strict s), (PreferredTimezone s); reflexivity.
Qed.


(** ** The extraction engine of the specification *)

Lemma spansOverlap_sym (a b : ParsedDate) : spansOverlap a b = spansOverlap b a.
Proof.
  unfold spansOverlap.
  rewrite (Z.max_comm (Position a)), (Z.min_comm (Position a + Length a)).
  reflexivity.
Qed.

Lemma spansOverlap_false (a b : ParsedDate) :
  spansOverlap a b = false -> forall k, ~ (inSpan a k /\ inSpan b k).
Proof.
  unfold spansOverlap, inSpan. intros H k [Ha Hb].
  apply Z.ltb_ge in H. lia.
Qed.

Section OrderedPairs.
Context {A : Type} (R : A -> A -> Prop).
Hypothesis R_sym : forall a b, R a b -> R b a.

Lemma ForallOrdPairs_snoc (l : list A) (c : A) :
  ForallOrdPairs R l -> Forall (fun a => R a c) l ->
  ForallOrdPairs R (l ++ [c]).
Proof.
  induction 1 as [|a l Ha Hl IH]; intros Hc; simpl.
  - constructor; constructor.
  - inversion Hc as [|? ? Hac Hc']; subst. constructor.
    + apply Forall_app. split; [exact Ha|]. constructor; [exact Hac|constructor].
    + apply IH, Hc'.
Qed.

Lemma ForallOrdPairs_Permutation (l l' : list A) :
  l ≡ₚ l' -> ForallOrdPairs R l -> ForallOrdPairs R l'.
Proof.
  induction 1 as [|x l l' Hp IH|x y l|l l' l'' _ IH1 _ IH2]; intros H.
  - exact H.
  - inversion H as [|? ? Hx Hl]; subst. constructor.
    + rewrite <- Hp. exact Hx.
    + apply IH, Hl.
  - inversion H as [|? ? Hy Hxl]; subst.
    inversion Hxl as [|? ? Hx Hl]; subst.
    inversion Hy as [|? ? Hyx Hyl]; subst.
    constructor; [constructor; [apply R_sym, Hyx|exact Hx]|].
    constructor; assumption.
  - apply IH2, IH1, H.
Qed.

Lemma ForallOrdPairs_lookup (l : list A) (i j : nat) (a b : A) :
  ForallOrdPairs R l -> i <> j ->
  l !! i = Some a -> l !! j = Some b -> R a b.
Proof.
  intros H. revert i j. induction H as [|x l Hx Hl IH]; intros i j Hij Hi Hj.
  - discriminate Hi.
  - destruct i as [|i], j as [|j]; simpl in Hi, Hj.
    + contradiction.
    + injection Hi as ->. exact (Forall_lookup_1 _ _ _ _ Hx Hj).
    + injection Hj as ->. apply R_sym. exact (Forall_lookup_1 _ _ _ _ Hx Hi).
    + apply (IH i j); auto.
Qed.
End OrderedPairs.

Lemma existsb_false_Forall {A : Type} (f : A -> bool) (l : list A) :
  existsb f l = false -> Forall (fun a => f a = false) l.
Proof.
  induction l as [|a l IH]; simpl; intros H; constructor.
  - apply orb_false_elim in H as [Ha _]. exact Ha.
  - apply orb_false_elim in H as [_ Hl]. apply IH, Hl.
Qed.

(** The greedy pass keeps the accepted spans pairwise disjoint. *)
Lemma acceptGreedy_disjoint (candidates accepted : list ParsedDate) :
  ForallOrdPairs (fun a b => spansOverlap a b = false) accepted ->
  ForallOrdPairs (fun a b => spansOverlap a b = false)
    (acceptGreedy accepted candidates).
Proof.
  revert accepted. induction candidates as [|c rest IH]; intros accepted Hacc; simpl.
  - exact Hacc.
  - destruct (existsb (spansOverlap c) accepted) eqn:Hc.
    + apply IH, Hacc.
    + apply IH, ForallOrdPairs_snoc; [exact Hacc|].
      apply existsb_false_Forall in Hc.
      eapply Forall_impl; [exact Hc|].
      intros a Ha. simpl in Ha. rewrite spansOverlap_sym. exact Ha.
Qed.

Lemma startsBefore_total : Total startsBefore.
Proof. intros a b. unfold startsBefore. lia. Qed.

Lemma startsBefore_trans : Transitive startsBefore.
Proof. intros a b c. unfold startsBefore. lia. Qed.

(** C3: the matches [ExtractDates] returns over the extraction engine of the
    specification are sorted by ascending start offset, and no two of them
    at different indices have spans [[Position, Position + Length)] that
    share an offset, whatever the configuration, the text and the
    candidates found in it. *)
Theorem C3_matches_sorted_and_disjoint (X : Scanner) (rt : Runtime)
    (text : string) (opts : option Settings) :
  let ms := matchesOf (snd (ExtractDates (extractAllDatesModel X) rt text opts)) in
  StronglySorted startsBefore ms /\ nonOverlapping ms.
Proof.
  unfold ExtractDates. destruct (String.eqb text ""); simpl.
  - split; [constructor|]. intros i j a b _ Hi. discriminate Hi.
  - set (cands := merge_sort rankedBefore (discover X (makeContext rt text opts))).
    split.
    + apply (@StronglySorted_merge_sort _ startsBefore _
               startsBefore_trans startsBefore_total).
    + assert (Hd : ForallOrdPairs (fun a b => spansOverlap a b = false)
                     (merge_sort startsBefore (acceptGreedy [] cands))).
      { apply (ForallOrdPairs_Permutation _
                 (fun a b H => eq_trans (spansOverlap_sym b a) H)
                 (acceptGreedy [] cands)).
        - symmetry. apply merge_sort_Permutation.
        - apply acceptGreedy_disjoint. constructor. }
      intros i j a b Hij Hi Hj.
      apply spansOverlap_false.
      exact (ForallOrdPairs_lookup _
               (fun a b H => eq_trans (spansOverlap_sym b a) H)
               _ i j a b Hd Hij Hi Hj).
Qed.

(** On the example text of the specification the year alone, inside the
    ISO date, is not reported, and the specific failure of the absolute
    strategy at offset 8 is a non-match there. *)
Example extraction_example :
  map (fun m => (Position m, Length m, MatchedText m))
    (matchesOf (snd (ExtractDates (extractAllDatesModel exampleScanner)
                       runtime0 exampleText None)))
  = [(8, 6, "Dec 31"); (28, 10, "2025-01-15")].
Proof. vm_compute. reflexivity. Qed.

(** * The statements at concrete inputs *)

Lemma noMatch_rejects : rejectsNonDigits noMatch.
Proof. intros ctx _. exists (errorString "no match"). split; reflexivity. Qed.

Lemma absoluteOnly_ignoresEnableParsers : ignoresEnableParsers absoluteOnly.
Proof. intros s ctx l. destruct s; reflexivity. Qed.

Lemma absolute_with_or_without_timezone (n : string) :
  n <> "timezone" ->
  isEnabledIn ["absolute"; "timezone"] n = isEnabledIn ["absolute"] n.
Proof.
  intros Hn. cbn [isEnabledIn].
  destruct (String.eqb "absolute" n); [reflexivity|].
  destruct (String.eqb_spec "timezone" n) as [E|_]; [|reflexivity].
  exfalso. apply Hn. symmetry. exact E.
Qed.






(** "01/02/2024": ambiguous when strict with no order, January 2 under "MDY". *)
Lemma C5_at_strict_settings :
  snd (ParseDate absoluteOnly runtime0 "01/02/2024" (Some strictUnset))
  = Err (ErrAmbiguousDate "01/02/2024") /\
  snd (ParseDate absoluteOnly runtime0 "01/02/2024" (Some strictMDY))
  = Ok (time.Date 2024 1 2 0 0 0 0 time.UTC).
Proof.
  split.
  - apply (proj1 (C5_strict_ambiguity absoluteOnly runtime0 strictUnset
                    eq_refl noMatch_rejects eq_refl)); reflexivity.
  - apply (proj2 (C5_strict_ambiguity absoluteOnly runtime0 strictMDY
                    eq_refl noMatch_rejects eq_refl)); reflexivity.
Defined.

(** "hello" is recognised by no parser: the invalid-format failure. *)
Lemma C6_at_unrecognised_text :
  snd (ParseDate absoluteOnly runtime0 "hello" None) = Err (ErrInvalidFormat "hello").
Proof.
  destruct (C6_empty_input_and_invalid_format absoluteOnly
              (extractAllDatesModel exampleScanner) exampleScanner runtime0 None)
    as (_ & _ & H & _).
  apply H; [discriminate|].
  repeat constructor; eexists; split; vm_compute; reflexivity.
Defined.

(** The leap day of 2024, written in ISO form, under a day-first order. *)
Lemma C8_at_leap_day :
  snd (ParseDate absoluteOnly runtime0 "2024-02-29"
         (Some (withDateOrder emptySettings "DMY")))
  = Ok (time.Date 2024 2 29 0 0 0 0 time.UTC).
Proof.
  apply (C8_iso_date_at_midnight absoluteOnly runtime0 emptySettings 2024 2 29);
    [reflexivity|exact noMatch_rejects|reflexivity|lia|reflexivity].
Defined.

(** With only "timezone" enabled the ISO date is not parsed at all. *)
Lemma C8_absolute_parser_disabled :
  validDate 2024 12 31 = true /\
  ParseDate absoluteOnly runtime0 (isoDate 2024 12 31) (Some timezoneOnly)
  = ([], Err (ErrInvalidFormat "2024-12-31")).
Proof. split; vm_compute; reflexivity. Qed.



(** "absolute" with and without "timezone" beside it: the same result. *)
Lemma C10_at_absolute_list :
  snd (ParseDate absoluteOnly runtime0 "2024-12-31"
         (Some (withParsers emptySettings ["absolute"; "timezone"])))
  = snd (ParseDate absoluteOnly runtime0 "2024-12-31"
           (Some (withParsers emptySettings ["absolute"]))).
Proof.
  destruct (C10_timezone_never_dispatched absoluteOnly runtime0 "2024-12-31"
              emptySettings) as [H _]; [discriminate|].
  apply (H ["absolute"; "timezone"] ["absolute"]);
    [discriminate|discriminate|exact absolute_with_or_without_timezone
    |exact absoluteOnly_ignoresEnableParsers].
Defined.

(** Taking "timezone" out of the list ["timezone"] leaves the empty list,
    which enables every parser: the result changes. *)
Lemma C10_removing_timezone_changes_result :
  snd (ParseDate absoluteOnly runtime0 "2024-12-31"
         (Some (withParsers emptySettings ["timezone"])))
  = Err (ErrInvalidFormat "2024-12-31") /\
  snd (ParseDate absoluteOnly runtime0 "2024-12-31"
         (Some (withParsers emptySettings [])))
  = Ok (time.Date 2024 12 31 0 0 0 0 time.UTC).
Proof. split; vm_compute; reflexivity. Qed.

(** * Further properties of [godateparser.go] *)

(** ** [normalizeSettings] *)

(** X1: normalising a normalised snapshot again, at the same time, changes
    nothing. *)
Theorem X1_normalizeSettings_idempotent (now : time.Time) (s : Settings) :
  normalizeSettings now (normalizeSettings now s) = normalizeSettings now s.
Proof.
  destruct s as [order langs base parsers strict tz prefer].
  unfold normalizeSettings; simpl.
  assert (Horder : (if String.eqb
                       (if String.eqb order "" then "MDY" else order) ""
                    then "MDY" else if String.eqb order "" then "MDY" else order)
                   = if String.eqb order "" then "MDY" else order).
  { destruct (String.eqb order "") eqn:E; [reflexivity|]. rewrite E. reflexivity. }
  assert (Hprefer : (if String.eqb
                        (if String.eqb prefer "" then "future" else prefer) ""
                     then "future"
                     else if String.eqb prefer "" then "future" else prefer)
                    = if String.eqb prefer "" then "future" else prefer).
  { destruct (String.eqb prefer "") eqn:E; [reflexivity|]. rewrite E. reflexivity. }
  assert (Hbase : (if time.IsZero (if time.IsZero base then now else base)
                   then now else if time.IsZero base then now else base)
                  = if time.IsZero base then now else base).
  { destruct (time.IsZero base) eqn:E.
    - destruct (time.IsZero now); reflexivity.
    - rewrite E. reflexivity. }
  rewrite Horder, Hprefer, Hbase.
  destruct langs, parsers, tz; reflexivity.
Qed.

(** X2: after normalisation no optional field is left unset: [DateOrder]
    and [PreferDatesFrom] are not empty, [Languages] and [EnableParsers]
    have an element, [PreferredTimezone] is not nil, and [RelativeBase] is
    not the zero time unless the clock itself reads it. *)
Theorem X2_normalizeSettings_leaves_nothing_unset (now : time.Time) (s : Settings) :
  DateOrder (normalizeSettings now s) <> "" /\
  Languages (normalizeSettings now s) <> [] /\
  EnableParsers (normalizeSettings now s) <> [] /\
  PreferredTimezone (normalizeSettings now s) <> None /\
  PreferDatesFrom (normalizeSettings now s) <> "" /\
  (time.IsZero (RelativeBase (normalizeSettings now s)) = true ->
   time.IsZero now = true).
Proof.
  unfold normalizeSettings; simpl. repeat split.
  - destruct (String.eqb_spec (DateOrder s) ""); [discriminate|assumption].
  - destruct (Languages s); discriminate.
  - destruct (EnableParsers s); discriminate.
  - destruct (PreferredTimezone s); discriminate.
  - destruct (String.eqb_spec (PreferDatesFrom s) ""); [discriminate|assumption].
  - destruct (time.IsZero (RelativeBase s)) eqn:E; [auto|congruence].
Qed.

(** ** The context of a call *)

(** X3: an unset [DateOrder] and an explicit "MDY" give the parsers the same
    input, the same normalised settings and the same languages; only
    [autoDetectDateOrder], computed before the normalisation, tells them
    apart.  With nil settings the order is never auto-detected. *)
Theorem X3_autoDetect_is_decided_before_normalisation (rt : Runtime)
    (text : string) (s : Settings) :
  let unset := makeContext rt text (Some (withDateOrder s "")) in
  let mdy := makeContext rt text (Some (withDateOrder s "MDY")) in
  input unset = input mdy /\
  settings unset = settings mdy /\
  languages unset = languages mdy /\
  autoDetectDateOrder unset = true /\
  autoDetectDateOrder mdy = false /\
  autoDetectDateOrder (makeContext rt text None) = false /\
  (forall o, autoDetectDateOrder (makeContext rt text (Some o)) = true
             <-> DateOrder o = "").
Proof.
  repeat split; try reflexivity.
  - intros H. apply String.eqb_eq. exact H.
  - intros H. apply String.eqb_eq. exact H.
Qed.

(** ** What [ParseDate] returns and calls *)

(** X4: the error of a failed [ParseDate] is the empty-input failure (for
    the empty input and for no other), or the invalid-format failure on the
    input (every enabled parser having failed generically), or the specific
    failure of an enabled parser; what a parser reports when it merely does
    not match never reaches the caller. *)
Theorem X4_ParseDate_error_kinds (P : Strategies) (rt : Runtime)
    (text : string) (opts : option Settings) (e : error) :
  snd (ParseDate P rt text opts) = Err e ->
  let ctx := makeContext rt text opts in
  (text = "" /\ e = ErrEmptyInput) \/
  (text <> "" /\ e = ErrInvalidFormat text /\
   Forall (failsGenerically P ctx) (enabledOf ctx priority)) \/
  (text <> "" /\ isSpecificError e = true /\
   exists s, s ∈ enabledOf ctx priority /\ run P s ctx = Err e).
Proof.
  intros He ctx.
  destruct (String.eqb_spec text "") as [->|Hne].
  - left. simpl in He. injection He as <-. auto.
  - right.
    pose proof (ParseDate_Outcome P rt text opts Hne) as Hout. fold ctx in Hout.
    destruct (Outcome_cases _ _ _ _ _ Hout)
      as [(pre0 & s0 & post0 & E0 & Hpre & Hs0 & _ & Hres)|(Hall & _ & Hres)].
    + right. split; [assumption|].
      rewrite He in Hres.
      destruct (isSpecificError e) eqn:Hspec.
      * split; [reflexivity|]. exists s0. split; [|auto].
        rewrite E0. apply elem_of_app. right. apply elem_of_cons. auto.
      * exfalso. apply Hs0. exists e. auto.
    + left. rewrite He in Hres. injection Hres as ->. auto.
Qed.

(** X5: one call of [ParseDate] calls each strategy parser at most once, in
    the order of the priority list, seven calls at most; none on the empty
    input. *)
Theorem X5_each_parser_called_at_most_once (P : Strategies) (rt : Runtime)
    (text : string) (opts : option Settings) :
  let called := map callee (fst (ParseDate P rt text opts)) in
  called `sublist_of` priority /\ NoDup called /\ (length called <= 7)%nat /\
  (text = "" -> called = []).
Proof.
  intros called.
  assert (Hsub : called `sublist_of` priority).
  { subst called. destruct (String.eqb_spec text "") as [->|Hne].
    - simpl. apply sublist_nil_l.
    - destruct (Outcome_prefix _ _ _ _ _ (ParseDate_Outcome P rt text opts Hne))
        as [later Hlater].
      transitivity (enabledOf (makeContext rt text opts) priority).
      + rewrite Hlater. apply sublist_inserts_r. reflexivity.
      + apply enabledOf_sublist. }
  split; [exact Hsub|]. split; [|split].
  - exact (sublist_NoDup _ _ priority_NoDup Hsub).
  - exact (sublist_length _ _ Hsub).
  - intros ->. reflexivity.
Qed.

(** X6: the names in [EnableParsers] are not checked: a non-empty list that
    spells none of the seven strategy names (a misspelt or capitalised name,
    "timezone") disables every parser, and [ParseDate] answers every
    non-empty input with the invalid-format failure without calling one. *)
Theorem X6_unknown_parser_names_disable_all (P : Strategies) (rt : Runtime)
    (text : string) (s : Settings) :
  text <> "" ->
  EnableParsers s <> [] ->
  (forall st, ~ In (strategyName st) (EnableParsers s)) ->
  ParseDate P rt text (Some s) = ([], Err (ErrInvalidFormat text)).
Proof.
  intros Hne Hlist Hnone. rewrite ParseDate_unfold by assumption.
  rewrite dispatch_none_enabled; [reflexivity|].
  intros st. rewrite settings_makeContext. unfold isParserEnabled.
  rewrite EnableParsers_normalize by exact Hlist.
  destruct (isEnabledIn (EnableParsers (orDefault (Some s))) (strategyName st)) eqn:E;
    [|reflexivity].
  apply isEnabledIn_In in E. exfalso. exact (Hnone st E).
Qed.

(** * Properties of [examples/web_scraper.go] *)

(** ** Bytes, indices and slices *)

Lemma length_append (s t : string) :
  String.length (s +:+ t) = (String.length s + String.length t)%nat.
Proof. induction s as [|c s IH]; simpl; [reflexivity|]. rewrite IH. reflexivity. Qed.

Lemma append_cons (c : ascii) (s t : string) :
  String c s +:+ t = String c (s +:+ t).
Proof. reflexivity. Qed.

Lemma append_nil (t : string) : EmptyString +:+ t = t.
Proof. reflexivity. Qed.

Lemma append_assoc (s t u : string) : (s +:+ t) +:+ u = s +:+ (t +:+ u).
Proof.
  induction s as [|c s IH]; [reflexivity|].
  rewrite !append_cons, IH. reflexivity.
Qed.

Lemma containsByte_append (c : ascii) (s t : string) :
  containsByte c (s +:+ t) = containsByte c s || containsByte c t.
Proof.
  induction s as [|a s IH]; simpl; [reflexivity|].
  rewrite IH. apply orb_assoc.
Qed.

Lemma Index_byte_cons (a c : ascii) (r : string) :
  strings.Index (String a r) (String c EmptyString)
  = if Ascii.eqb a c then 0
    else if strings.Index r (String c EmptyString) =? -1 then -1
         else strings.Index r (String c EmptyString) + 1.
Proof.
  cbn [strings.Index].
  change (String.prefix (String c EmptyString) (String a r))
    with (if ascii_dec c a then String.prefix EmptyString r else false).
  destruct (ascii_dec c a) as [->|Hne].
  - rewrite Ascii.eqb_refl. destruct r; reflexivity.
  - destruct (Ascii.eqb_spec a c) as [->|_]; [contradiction|reflexivity].
Qed.

Lemma Index_byte_nil (c : ascii) :
  strings.Index EmptyString (String c EmptyString) = -1.
Proof. reflexivity. Qed.

Lemma Index_byte_absent (c : ascii) (s : string) :
  containsByte c s = false -> strings.Index s (String c EmptyString) = -1.
Proof.
  induction s as [|a s IH]; intros H; [reflexivity|].
  simpl in H. apply orb_false_elim in H as [Ha Hs].
  rewrite Index_byte_cons, Ha, (IH Hs). reflexivity.
Qed.

Lemma Index_byte_found (c : ascii) (pre post : string) :
  containsByte c pre = false ->
  strings.Index (pre +:+ String c post) (String c EmptyString) = strlen pre.
Proof.
  unfold strlen. induction pre as [|a pre IH]; intros H.
  - rewrite append_nil, Index_byte_cons, Ascii.eqb_refl. reflexivity.
  - simpl in H. apply orb_false_elim in H as [Ha Hpre].
    rewrite append_cons, Index_byte_cons, Ha, (IH Hpre).
    simpl String.length.
    destruct (Z.eqb_spec (Z.of_nat (String.length pre)) (-1)); lia.
Qed.

(** A text in which [c] occurs, cut at the first [c]. *)
Lemma first_byte (c : ascii) (s : string) :
  containsByte c s = true ->
  exists pre post, s = pre +:+ String c post /\ containsByte c pre = false.
Proof.
  induction s as [|a s IH]; intros H; [discriminate|].
  simpl in H. destruct (Ascii.eqb_spec a c) as [->|Hne].
  - exists EmptyString, s. auto.
  - simpl in H. destruct (IH H) as (pre & post & -> & Hpre).
    exists (String a pre), post. split; [reflexivity|].
    simpl. rewrite Hpre. destruct (Ascii.eqb_spec a c); [contradiction|reflexivity].
Qed.

Lemma dropBytes_append (pre t : string) :
  dropBytes (String.length pre) (pre +:+ t) = t.
Proof. induction pre as [|a pre IH]; simpl; [destruct t; reflexivity|exact IH]. Qed.

Lemma takeBytes_append (pre t : string) :
  takeBytes (String.length pre) (pre +:+ t) = pre.
Proof.
  induction pre as [|a pre IH]; simpl; [destruct t; reflexivity|].
  rewrite IH. reflexivity.
Qed.

Lemma sliceFrom_append (pre t : string) :
  sliceFrom (pre +:+ t) (strlen pre) = Some t.
Proof.
  unfold sliceFrom, strlen. rewrite length_append, Nat2Z.id, dropBytes_append.
  destruct (Z.leb_spec 0 (Z.of_nat (String.length pre))); [|lia].
  destruct (Z.leb_spec (Z.of_nat (String.length pre))
              (Z.of_nat (String.length pre + String.length t))); [reflexivity|lia].
Qed.

Lemma sliceTo_append (pre t : string) :
  sliceTo (pre +:+ t) (strlen pre) = Some pre.
Proof.
  unfold sliceTo, strlen. rewrite length_append, Nat2Z.id, takeBytes_append.
  destruct (Z.leb_spec 0 (Z.of_nat (String.length pre))); [|lia].
  destruct (Z.leb_spec (Z.of_nat (String.length pre))
              (Z.of_nat (String.length pre + String.length t))); [reflexivity|lia].
Qed.

(** ** One iteration of the loop *)

Lemma loop_no_open (fuel : nat) (s : string) :
  containsByte "<" s = false ->
  removeHTMLTagsLoop (S fuel) s = Returns s.
Proof.
  intros H. simpl. rewrite (Index_byte_absent "<" s H). reflexivity.
Qed.

Lemma loop_no_close (fuel : nat) (pre t : string) :
  containsByte "<" pre = false -> containsByte ">" t = false ->
  removeHTMLTagsLoop (S fuel) (pre +:+ String "<" t) = Returns (pre +:+ String "<" t).
Proof.
  intros Hpre Ht. cbn [removeHTMLTagsLoop].
  rewrite (Index_byte_found "<" pre t Hpre).
  destruct (Z.eqb_spec (strlen pre) (-1)) as [E|_]; [unfold strlen in E; lia|].
  rewrite sliceFrom_append.
  rewrite (Index_byte_absent ">" (String "<" t)) by (simpl; exact Ht).
  reflexivity.
Qed.

Lemma loop_step (fuel : nat) (pre mid post : string) :
  containsByte "<" pre = false -> containsByte ">" mid = false ->
  removeHTMLTagsLoop (S fuel) (pre +:+ String "<" (mid +:+ String ">" post))
  = removeHTMLTagsLoop fuel (pre +:+ (" " +:+ post)).
Proof.
  intros Hpre Hmid. cbn [removeHTMLTagsLoop].
  rewrite (Index_byte_found "<" pre _ Hpre).
  destruct (Z.eqb_spec (strlen pre) (-1)) as [E|_]; [unfold strlen in E; lia|].
  rewrite sliceFrom_append.
  change (String "<" (mid +:+ String ">" post))
    with (String "<" mid +:+ String ">" post).
  rewrite (Index_byte_found ">" (String "<" mid) post) by (simpl; exact Hmid).
  destruct (Z.eqb_spec (strlen (String "<" mid)) (-1)) as [E|_];
    [unfold strlen in E; lia|].
  rewrite sliceTo_append.
  replace (pre +:+ (String "<" mid +:+ String ">" post))
    with ((pre +:+ (String "<" mid +:+ String ">" EmptyString)) +:+ post)
    by (rewrite !append_assoc; reflexivity).
  replace (strlen pre + strlen (String "<" mid) + 1)
    with (strlen (pre +:+ (String "<" mid +:+ String ">" EmptyString)))
    by (unfold strlen; rewrite !length_append; simpl String.length; lia).
  rewrite sliceFrom_append. reflexivity.
Qed.

(** A text has no "<", or no ">" after its first "<", or a first tag. *)
Lemma tag_cases (s : string) :
  containsByte "<" s = false \/
  (exists pre t,
      s = pre +:+ String "<" t /\
      containsByte "<" pre = false /\ containsByte ">" t = false) \/
  (exists pre mid post,
      s = pre +:+ String "<" (mid +:+ String ">" post) /\
      containsByte "<" pre = false /\ containsByte ">" mid = false).
Proof.
  destruct (containsByte "<" s) eqn:Hopen; [right|left; reflexivity].
  destruct (first_byte "<" s Hopen) as (pre & t & -> & Hpre).
  destruct (containsByte ">" t) eqn:Hclose.
  - right. destruct (first_byte ">" t Hclose) as (mid & post & -> & Hmid).
    exists pre, mid, post. auto.
  - left. exists pre, t. auto.
Qed.

(** ** Tags *)

Lemma hasTag_no_close (t : string) :
  containsByte ">" t = false -> hasTag t = false.
Proof.
  induction t as [|a t IH]; intros H; [reflexivity|].
  simpl in H. apply orb_false_elim in H as [_ Ht].
  simpl. rewrite Ht, (IH Ht), andb_false_r. reflexivity.
Qed.

Lemma hasTag_append_no_open (pre x : string) :
  containsByte "<" pre = false -> hasTag (pre +:+ x) = hasTag x.
Proof.
  induction pre as [|a pre IH]; intros H; [reflexivity|].
  simpl in H. apply orb_false_elim in H as [Ha Hpre].
  rewrite append_cons. simpl. rewrite Ha, (IH Hpre). reflexivity.
Qed.

Lemma hasTag_no_open (s : string) :
  containsByte "<" s = false -> hasTag s = false.
Proof.
  induction s as [|a s IH]; intros H; [reflexivity|].
  simpl in H. apply orb_false_elim in H as [Ha Hs].
  simpl. rewrite Ha, (IH Hs). reflexivity.
Qed.

(** A "<" with a ">" anywhere after it is a tag. *)
Lemma hasTag_written (pre mid post : string) :
  hasTag (pre +:+ String "<" (mid +:+ String ">" post)) = true.
Proof.
  induction pre as [|a pre IH].
  - rewrite append_nil. simpl. rewrite containsByte_append. simpl.
    rewrite orb_true_r. reflexivity.
  - rewrite append_cons. simpl. rewrite IH. apply orb_true_r.
Qed.

(** ** The loop as a whole *)

(** With more iterations than the text has bytes the loop returns; what it
    returns has no tag, is not longer than the text, is the text itself
    when that has no tag and is shorter otherwise, and is empty only if the
    text is. *)
Lemma loop_returns (fuel : nat) (s : string) :
  (String.length s < fuel)%nat ->
  exists r,
    removeHTMLTagsLoop fuel s = Returns r /\
    hasTag r = false /\
    (String.length r <= String.length s)%nat /\
    (hasTag s = false -> r = s) /\
    (hasTag s = true -> (String.length r < String.length s)%nat) /\
    (s <> EmptyString -> r <> EmptyString).
Proof.
  revert s. induction fuel as [|fuel IH]; intros s Hfuel; [lia|].
  destruct (tag_cases s)
    as [Hopen|[(pre & t & -> & Hpre & Ht)|(pre & mid & post & -> & Hpre & Hmid)]].
  - exists s. rewrite loop_no_open by assumption.
    pose proof (hasTag_no_open s Hopen) as Hno.
    repeat split; auto. congruence.
  - exists (pre +:+ String "<" t). rewrite loop_no_close by assumption.
    assert (Hno : hasTag (pre +:+ String "<" t) = false).
    { rewrite hasTag_append_no_open by assumption.
      simpl. rewrite Ht, (hasTag_no_close t Ht). reflexivity. }
    repeat split; auto. congruence.
  - rewrite loop_step by assumption.
    assert (Hlen : (String.length (pre +:+ (" " +:+ post))
                    < String.length (pre +:+ String "<" (mid +:+ String ">" post)))%nat).
    { rewrite !length_append. simpl. rewrite length_append. simpl. lia. }
    destruct (IH (pre +:+ (" " +:+ post))) as (r & Hr & Hno & Hle & _ & _ & Hne);
      [lia|].
    exists r. repeat split; auto.
    + lia.
    + rewrite hasTag_written. discriminate.
    + intros _. lia.
    + intros _. apply Hne. intros E.
      apply (f_equal String.length) in E. rewrite length_append in E.
      simpl in E. lia.
Qed.

(** The number of iterations allowed does not matter, once it is enough. *)
Lemma loop_fuel (fuel1 fuel2 : nat) (s : string) :
  (String.length s < fuel1)%nat -> (String.length s < fuel2)%nat ->
  removeHTMLTagsLoop fuel1 s = removeHTMLTagsLoop fuel2 s.
Proof.
  revert fuel2 s. induction fuel1 as [|fuel1 IH]; intros fuel2 s H1 H2; [lia|].
  destruct fuel2 as [|fuel2]; [lia|].
  destruct (tag_cases s)
    as [Hopen|[(pre & t & -> & Hpre & Ht)|(pre & mid & post & -> & Hpre & Hmid)]].
  - rewrite !loop_no_open by assumption. reflexivity.
  - rewrite !loop_no_close by assumption. reflexivity.
  - rewrite !loop_step by assumption.
    assert (Hlen : (String.length (pre +:+ (" " +:+ post))
                    < String.length (pre +:+ String "<" (mid +:+ String ">" post)))%nat).
    { rewrite !length_append. simpl. rewrite length_append. simpl. lia. }
    apply IH; lia.
Qed.

(** Text without "<" in front of a text stays in front of the result. *)
Lemma loop_prefix (fuel : nat) (p s r : string) :
  containsByte "<" p = false ->
  removeHTMLTagsLoop fuel s = Returns r ->
  removeHTMLTagsLoop fuel (p +:+ s) = Returns (p +:+ r).
Proof.
  intros Hp. revert s. induction fuel as [|fuel IH]; intros s Hr; [discriminate|].
  destruct (tag_cases s)
    as [Hopen|[(pre & t & -> & Hpre & Ht)|(pre & mid & post & -> & Hpre & Hmid)]].
  - rewrite loop_no_open in Hr by assumption. injection Hr as <-.
    apply loop_no_open. rewrite containsByte_append, Hp, Hopen. reflexivity.
  - rewrite loop_no_close in Hr by assumption. injection Hr as <-.
    rewrite <- append_assoc. apply loop_no_close; [|assumption].
    rewrite containsByte_append, Hp, Hpre. reflexivity.
  - rewrite loop_step in Hr by assumption.
    rewrite <- append_assoc, loop_step;
      [|rewrite containsByte_append, Hp, Hpre; reflexivity|assumption].
    rewrite append_assoc. apply IH, Hr.
Qed.

(** X7: [removeHTMLTags] returns for every text: no slice expression goes
    out of range, and the loop ends within one iteration more than the text
    has bytes; a larger bound gives the same result. *)
Theorem X7_removeHTMLTags_returns (html : string) :
  exists r,
    removeHTMLTags html = Returns r /\
    forall fuel, (String.length html < fuel)%nat ->
      removeHTMLTagsLoop fuel html = Returns r.
Proof.
  destruct (loop_returns (S (String.length html)) html) as (r & Hr & _); [lia|].
  exists r. split; [exact Hr|].
  intros fuel Hfuel. rewrite <- Hr. apply loop_fuel; lia.
Qed.

(** X8: in the text [removeHTMLTags] returns no "<" has a ">" after it: the
    text cannot be cut as [pre < mid > post]. *)
Theorem X8_removeHTMLTags_leaves_no_tag (html : string) :
  exists r,
    removeHTMLTags html = Returns r /\
    hasTag r = false /\
    forall pre mid post, r <> pre +:+ String "<" (mid +:+ String ">" post).
Proof.
  destruct (loop_returns (S (String.length html)) html) as (r & Hr & Hno & _); [lia|].
  exists r. repeat split; auto.
  intros pre mid post E. rewrite E, hasTag_written in Hno. discriminate.
Qed.

(** X9: [removeHTMLTags] never returns a longer text: a text in which no
    "<" has a ">" after it is returned as it is, any other text comes back
    shorter. *)
Theorem X9_removeHTMLTags_shortens (html : string) :
  exists r,
    removeHTMLTags html = Returns r /\
    (String.length r <= String.length html)%nat /\
    (hasTag html = false -> r = html) /\
    (hasTag html = true -> (String.length r < String.length html)%nat).
Proof.
  destruct (loop_returns (S (String.length html)) html)
    as (r & Hr & _ & Hle & Hsame & Hlt & _); [lia|].
  exists r. auto.
Qed.

(** X10: [removeHTMLTags] is idempotent: applied to its own result it
    returns that result. *)
Theorem X10_removeHTMLTags_idempotent (html : string) :
  exists r, removeHTMLTags html = Returns r /\ removeHTMLTags r = Returns r.
Proof.
  destruct (loop_returns (S (String.length html)) html) as (r & Hr & Hno & _); [lia|].
  exists r. split; [exact Hr|].
  destruct (loop_returns (S (String.length r)) r) as (r' & Hr' & _ & _ & Hsame & _);
    [lia|].
  unfold removeHTMLTags. rewrite Hr', (Hsame Hno). reflexivity.
Qed.

(** X11: the loop that searches from the start of the text each time does
    one pass from left to right: the text before the first tag is kept, the
    tag (from the first "<" to the first ">" after it) becomes one space,
    and what follows is treated the same way. *)
Theorem X11_removeHTMLTags_one_pass (pre mid post : string) :
  containsByte "<" pre = false ->
  containsByte ">" mid = false ->
  exists rest,
    removeHTMLTags post = Returns rest /\
    removeHTMLTags (pre +:+ String "<" (mid +:+ String ">" post))
    = Returns (pre +:+ (" " +:+ rest)).
Proof.
  intros Hpre Hmid.
  destruct (loop_returns (S (String.length post)) post) as (rest & Hrest & _); [lia|].
  exists rest. split; [exact Hrest|].
  unfold removeHTMLTags. rewrite loop_step by assumption.
  rewrite <- !append_assoc. apply loop_prefix.
  - rewrite containsByte_append, Hpre. reflexivity.
  - rewrite <- Hrest. apply loop_fuel; [|lia].
    rewrite !length_append. simpl. rewrite length_append. simpl. lia.
Qed.

(** ** [scrapeDates] *)

(** X12: [scrapeDates] returns for every response: an error of [http.Get]
    or of [io.ReadAll] is returned as it is and nothing is extracted;
    otherwise the extraction runs, under the default settings, on the body
    with its tags removed, a text in which no tag is left; an empty body is
    the empty-input failure, and a body that is not empty (be it nothing but
    tags) is handed to [extractAllDates] as a text that is not empty. *)
Theorem X12_scrapeDates_extracts_from_stripped_body (W : Web)
    (extractAllDates : Extractor) (rt : Runtime) (url : string) :
  (forall err, httpGet W url = Err err ->
     scrapeDates W extractAllDates rt url = Returns ([], Err err)) /\
  (forall resp err, httpGet W url = Ok resp -> readAll W resp = Err err ->
     scrapeDates W extractAllDates rt url = Returns ([], Err err)) /\
  (forall resp body, httpGet W url = Ok resp -> readAll W resp = Ok body ->
     exists content,
       removeHTMLTags body = Returns content /\
       hasTag content = false /\
       scrapeDates W extractAllDates rt url
       = Returns (ExtractDates extractAllDates rt content None) /\
       (body = "" ->
        scrapeDates W extractAllDates rt url = Returns ([], Err ErrEmptyInput)) /\
       (body <> "" ->
        content <> "" /\
        scrapeDates W extractAllDates rt url
        = Returns ([makeContext rt content None],
                   extractAllDates (makeContext rt content None)))).
Proof.
  unfold scrapeDates. split; [|split].
  - intros err ->. reflexivity.
  - intros resp err -> ->. reflexivity.
  - intros resp body -> ->.
    destruct (loop_returns (S (String.length body)) body)
      as (content & Hc & Hno & _ & Hsame & _ & Hne); [lia|].
    fold (removeHTMLTags body) in Hc.
    exists content. rewrite Hc.
    split; [reflexivity|]. split; [exact Hno|]. split; [reflexivity|]. split.
    + intros ->. rewrite (Hsame eq_refl). reflexivity.
    + intros Hbody. split; [exact (Hne Hbody)|].
      unfold ExtractDates.
      destruct (String.eqb_spec content "") as [E|_]; [|reflexivity].
      exfalso. exact (Hne Hbody E).
Qed.

(** * Properties of [examples/cli_tool.go] *)

Lemma Split_not_empty (s : string) (sep : ascii) : strings.Split s sep <> [].
Proof.
  destruct s as [|c s]; simpl; [discriminate|].
  destruct (Ascii.eqb c sep); [discriminate|].
  destruct (strings.Split s sep); discriminate.
Qed.

(** X13: the settings [buildSettings] makes with and without the [-future]
    flag are normalised to the same snapshot (an unset [PreferDatesFrom]
    defaults to "future"): [ParseDate] and [ExtractDates] call the same
    parsers on the same contexts and return the same result either way. *)
Theorem X13_future_flag_changes_nothing (now : time.Time)
    (timeParse : string -> string -> result time.Time)
    (dateOrder languages relative : string)
    (P : Strategies) (E : Extractor) (rt : Runtime) (text : string) :
  let withFlag := buildSettings now timeParse dateOrder languages true relative in
  let without := buildSettings now timeParse dateOrder languages false relative in
  normalizeSettings (Now rt) withFlag = normalizeSettings (Now rt) without /\
  ParseDate P rt text (Some withFlag) = ParseDate P rt text (Some without) /\
  ExtractDates E rt text (Some withFlag) = ExtractDates E rt text (Some without).
Proof.
  intros withFlag without.
  assert (Hn : normalizeSettings (Now rt) withFlag = normalizeSettings (Now rt) without)
    by reflexivity.
  assert (Hc : makeContext rt text (Some withFlag) = makeContext rt text (Some without))
    by reflexivity.
  unfold ParseDate, ExtractDates. rewrite Hc. auto.
Qed.

(** X14: a call on settings made by [buildSettings] has every strategy
    parser enabled, is never strict, prefers future dates, takes its
    languages from the [-lang] text cut at the commas (the default list is
    never substituted, not even for an empty text), and auto-detects the
    date order exactly when [-order] is empty. *)
Theorem X14_buildSettings_context (now : time.Time)
    (timeParse : string -> string -> result time.Time)
    (dateOrder languages relative : string) (preferFuture : bool)
    (rt : Runtime) (text : string) :
  let ctx := makeContext rt text
               (Some (buildSettings now timeParse dateOrder languages
                        preferFuture relative)) in
  enabledOf ctx priority = priority /\
  Strict (settings ctx) = false /\
  PreferDatesFrom (settings ctx) = "future" /\
  Languages (settings ctx) = strings.Split languages "," /\
  Languages (settings ctx) <> [] /\
  (autoDetectDateOrder ctx = true <-> dateOrder = "").
Proof.
  intros ctx. subst ctx.
  unfold makeContext, normalizeSettings, buildSettings; simpl.
  repeat split.
  - destruct preferFuture; reflexivity.
  - pose proof (Split_not_empty languages ",") as H.
    destruct (strings.Split languages ","); [contradiction|reflexivity].
  - pose proof (Split_not_empty languages ",") as H.
    destruct (strings.Split languages ","); [contradiction|discriminate].
  - apply String.eqb_eq.
  - apply String.eqb_eq.
Qed.

(** X15: a [-relative] text that [time.Parse] rejects is ignored without a
    word: the settings are those built with no [-relative] at all, based on
    the current time; one that parses is the base. *)
Theorem X15_unparsable_relative_is_ignored (now : time.Time)
    (timeParse : string -> string -> result time.Time)
    (dateOrder languages relative : string) (preferFuture : bool) :
  (forall err, timeParse "2006-01-02" relative = Err err ->
     buildSettings now timeParse dateOrder languages preferFuture relative
     = buildSettings now timeParse dateOrder languages preferFuture "") /\
  RelativeBase (buildSettings now timeParse dateOrder languages preferFuture "") = now /\
  (forall base, relative <> "" -> timeParse "2006-01-02" relative = Ok base ->
     RelativeBase
       (buildSettings now timeParse dateOrder languages preferFuture relative)
     = base).
Proof.
  unfold buildSettings. repeat split.
  - intros err ->. simpl. destruct (String.eqb relative ""); reflexivity.
  - intros base Hne ->. simpl.
    destruct (String.eqb_spec relative ""); [contradiction|reflexivity].
Qed.

(** * The further statements at concrete inputs *)

(** "hello" under the default settings: the invalid-format failure means
    that all seven parsers were enabled and found no match. *)
Lemma X4_at_unrecognised_text :
  Forall (failsGenerically absoluteOnly (makeContext runtime0 "hello" None))
    (enabledOf (makeContext runtime0 "hello" None) priority).
Proof.
  destruct (X4_ParseDate_error_kinds absoluteOnly runtime0 "hello" None
              (ErrInvalidFormat "hello"))
    as [[H _]|[(_ & _ & H)|(_ & H & _)]];
    [vm_compute; reflexivity|discriminate H|exact H|discriminate H].
Defined.

(** A capitalised and an invented parser name. *)
Lemma X6_at_misspelt_names :
  ParseDate absoluteOnly runtime0 "2024-12-31"
    (Some (withParsers emptySettings ["Absolute"; "date"]))
  = ([], Err (ErrInvalidFormat "2024-12-31")).
Proof.
  apply X6_unknown_parser_names_disable_all; [discriminate|discriminate|].
  intros st [H|[H|[]]]; destruct st; discriminate H.
Defined.

(** A comparison sign before the first tag is text like any other. *)
Lemma X11_at_text_with_comparison :
  exists rest,
    removeHTMLTags "c</b>" = Returns rest /\
    removeHTMLTags ("a > b " +:+ String "<" ("b" +:+ String ">" "c</b>"))
    = Returns ("a > b " +:+ (" " +:+ rest)).
Proof.
  apply (X11_removeHTMLTags_one_pass "a > b " "b" "c</b>"); reflexivity.
Defined.
